(** * google/colab/_reprs.py: rich representations of built-in types

    A shallow embedding of the module and the properties of its toggles
    (the enable and disable functions), of the intrinsic renderers and of the
    dataframe summarizer.

    The module is glue code over two host libraries, IPython (the interactive
    shell, its formatter registry and its user namespace) and pandas.  Their
    objects are modelled as plain data, and the module-level dictionaries of
    the source are fields of one explicit [World] that every function
    threads through a state-and-exception monad. *)

From stdpp Require Import base option gmap strings list.
From Stdlib Require Import Ascii String ZArith Lia.

Local Open Scope string_scope.
Local Open Scope Z_scope.

(** ** Python strings *)

(** Text is held as the bytes of its UTF-8 encoding.  The operations below
    look for ASCII characters only (a dot, an underscore, the prefix head(),
    which never occur inside the encoding of another character, so they
    agree with Python's on the text. *)

Module Str.

(** [s.startswith(p)] *)
Fixpoint startswith (s p : string) : bool :=
  match p, s with
  | EmptyString, _ => true
  | String a p', String b s' => if Ascii.eqb a b then startswith s' p' else false
  | String _ _, EmptyString => false
  end.

(** [s.partition(sep)] for a one-character separator: the text before the
    first occurrence, the separator if it occurs (else the empty string)
    and the text after it. *)
Fixpoint partition (sep : ascii) (s : string) : string * string * string :=
  match s with
  | EmptyString => (EmptyString, EmptyString, EmptyString)
  | String c r =>
      if Ascii.eqb c sep then (EmptyString, String sep EmptyString, r)
      else let '(h, d, t) := partition sep r in (String c h, d, t)
  end.

Fixpoint all_chars (p : ascii -> bool) (s : string) : bool :=
  match s with
  | EmptyString => true
  | String c r => p c && all_chars p r
  end.

(** What [s.isidentifier()] is on ASCII text: a letter or an underscore
    followed by letters, digits and underscores. *)
Definition is_ascii (s : string) : bool :=
  all_chars (fun c => (nat_of_ascii c <? 128)%nat) s.

Definition is_digit (c : ascii) : bool :=
  let n := nat_of_ascii c in (48 <=? n)%nat && (n <=? 57)%nat.

Definition is_id_start (c : ascii) : bool :=
  let n := nat_of_ascii c in
  ((65 <=? n)%nat && (n <=? 90)%nat) || ((97 <=? n)%nat && (n <=? 122)%nat)
  || (n =? 95)%nat.

Definition is_id_continue (c : ascii) : bool := is_id_start c || is_digit c.

Definition ascii_isidentifier (s : string) : bool :=
  match s with
  | EmptyString => false
  | String c r => is_id_start c && all_chars is_id_continue r
  end.

(** [len(s)]: the number of characters, that is of bytes that do not
    continue the encoding of a character (10xxxxxx). *)
Definition is_continuation (c : ascii) : bool :=
  let n := nat_of_ascii c in (128 <=? n)%nat && (n <? 192)%nat.

Fixpoint code_points (s : string) : nat :=
  match s with
  | EmptyString => O
  | String c r => if is_continuation c then code_points r else S (code_points r)
  end.

(** The last character of [s], with the bytes that continue it. *)
Fixpoint last_char (s : string) : string :=
  match s with
  | EmptyString => EmptyString
  | String c r =>
      match last_char r with
      | EmptyString => String c EmptyString
      | String d _ as t => if is_continuation d then String c t else t
      end
  end.

(** Truth value of a string: the empty string is falsy. *)
Definition truthy (s : string) : bool :=
  match s with EmptyString => false | _ => true end.

(** [s.rsplit('.', 1)] when [s] has a dot: the text before and after the
    last dot. *)
Fixpoint rsplit_dot (s : string) : option (string * string) :=
  match s with
  | EmptyString => None
  | String c r =>
      match rsplit_dot r with
      | Some (h, t) => Some (String c h, t)
      | None => if Ascii.eqb c "."%char then Some (EmptyString, r) else None
      end
  end.

End Str.

(** ** The formatter registry of the host shell *)

(** The callbacks a dispatch table can hold: the three this module installs
    and the host's own. *)
Inductive callback : Set :=
| Fn_string_intrinsic_repr
| Fn_dataframe_intrinsic_repr
| Fn_new_formatter
| Fn_host (n : nat).

Global Instance callback_eq_dec : EqDecision callback.
Proof. solve_decision. Defined.

(** The value-type half of a formatter key: a type given directly ([str]) or
    by the names of its module and class. *)
Inductive type_key : Set :=
| ByType (cls : string)
| ByName (type_module type_name : string).

Global Instance type_key_eq_dec : EqDecision type_key.
Proof. solve_decision. Defined.

Definition type_key_encode (k : type_key) : string + string * string :=
  match k with
  | ByType c => inl c
  | ByName m n => inr (m, n)
  end.

Definition type_key_decode (x : string + string * string) : type_key :=
  match x with
  | inl c => ByType c
  | inr (m, n) => ByName m n
  end.

Global Instance type_key_countable : Countable type_key.
Proof.
  apply (inj_countable' type_key_encode type_key_decode).
  by intros [].
Defined.

(** A dispatch table: value type -> callback. *)
Abbreviation Formatter := (gmap type_key callback).

(** The registry: MIME type -> dispatch table. *)
Abbreviation Registry := (gmap string Formatter).

(** A module-level dictionary of saved callbacks: MIME type -> saved callback,
    where the saved callback may be [None]. *)
Abbreviation Originals := (gmap string (option callback)).

(** ** pandas objects *)

Inductive cell : Set :=
| CInt (z : Z)
| CStr (s : string).

Global Instance cell_eq_dec : EqDecision cell.
Proof. solve_decision. Defined.

Inductive dtype : Set := int64 | float64 | bool_ | datetime64 | object_.

Record Series : Set := {
  s_name : string;
  s_dtype : dtype;
  s_values : list cell;
}.

Record DataFrame : Set := {
  df_len : Z;               (* len(df), the number of rows *)
  df_columns : list Series; (* df.columns, with the data of each column *)
}.

(** ** Python values and objects *)

#[warnings="-register-all"]
Inductive pyvalue : Set :=
| VNone
| VStr (s : string)
| VList (items : list pyvalue)
| VDataFrame (df : DataFrame)
| VOpaque (n : nat).

(** An object is a value at an address; [is] compares addresses. *)
Record object : Set := {
  obj_id : nat;
  obj_value : pyvalue;
}.

Definition is_ (a b : object) : bool := Nat.eqb (obj_id a) (obj_id b).

(** ** The world *)

Record Shell : Type := {
  formatters : Registry;                (* shell.display_formatter.formatters *)
  user_ns : list (string * object);     (* shell.user_ns, in insertion order *)
}.

Record World : Type := {
  ipython : option Shell;               (* what IPython.get_ipython() returns *)
  _original_string_formatters : Originals;
  _original_df_formatters : Originals;
  _original_dataframe_metadata_formatters : Originals;
}.

(** The three module-level dictionaries, as first-class names. *)
Inductive store : Set :=
| OriginalString
| OriginalDf
| OriginalDataframeMetadata.

Definition originals (d : store) (w : World) : Originals :=
  match d with
  | OriginalString => _original_string_formatters w
  | OriginalDf => _original_df_formatters w
  | OriginalDataframeMetadata => _original_dataframe_metadata_formatters w
  end.

Definition set_originals (d : store) (m : Originals) (w : World) : World :=
  match d with
  | OriginalString =>
      {| ipython := ipython w;
         _original_string_formatters := m;
         _original_df_formatters := _original_df_formatters w;
         _original_dataframe_metadata_formatters :=
           _original_dataframe_metadata_formatters w |}
  | OriginalDf =>
      {| ipython := ipython w;
         _original_string_formatters := _original_string_formatters w;
         _original_df_formatters := m;
         _original_dataframe_metadata_formatters :=
           _original_dataframe_metadata_formatters w |}
  | OriginalDataframeMetadata =>
      {| ipython := ipython w;
         _original_string_formatters := _original_string_formatters w;
         _original_df_formatters := _original_df_formatters w;
         _original_dataframe_metadata_formatters := m |}
  end.

Definition set_formatters (r : Registry) (w : World) : World :=
  {| ipython :=
       match ipython w with
       | Some sh => Some {| formatters := r; user_ns := user_ns sh |}
       | None => None
       end;
     _original_string_formatters := _original_string_formatters w;
     _original_df_formatters := _original_df_formatters w;
     _original_dataframe_metadata_formatters :=
       _original_dataframe_metadata_formatters w |}.

(** ** Exceptions and the monad of module code *)

Inductive exn : Set :=
| KeyError | AttributeError | IndexError | TypeError | ValueError.

(** A call either returns a value or raises; both leave a world behind. *)
Inductive outcome (A : Type) : Type :=
| Return (a : A) (w : World)
| Raise (e : exn) (w : World).
Arguments Return {A} a w.
Arguments Raise {A} e w.

Definition M (A : Type) : Type := World -> outcome A.

Global Instance M_ret : MRet M := fun A a w => Return a w.

Global Instance M_bind : MBind M := fun A B k m w =>
  match m w with
  | Return a w' => k a w'
  | Raise e w' => Raise e w'
  end.

Definition raise {A} (e : exn) : M A := fun w => Raise e w.

(** The world a call leaves behind, whether it returned or raised. *)
Definition world_after {A} (o : outcome A) : World :=
  match o with
  | Return _ w => w
  | Raise _ w => w
  end.

(** Computations without state: a value or an exception. *)
Inductive result (A : Type) : Type :=
| Ok (a : A)
| Err (e : exn).
Arguments Ok {A} a.
Arguments Err {A} e.

Global Instance result_ret : MRet result := fun A a => Ok a.

Global Instance result_bind : MBind result := fun A B k m =>
  match m with
  | Ok a => k a
  | Err e => Err e
  end.

(** ** Operations of the host that the module calls *)

(** [IPython.get_ipython()] *)
Definition get_ipython : M (option Shell) := fun w => Return (ipython w) w.

(** [formatters[key]] on the registry of the active shell.  Reading the
    registry of no shell is the [AttributeError] of [None.display_formatter]. *)
Definition registry_getitem (key : string) : M Formatter := fun w =>
  match ipython w with
  | None => Raise AttributeError w
  | Some sh =>
      match formatters sh !! key with
      | Some f => Return f w
      | None => Raise KeyError w
      end
  end.

(** [IPython.get_ipython().display_formatter.formatters] *)
Definition get_formatters : M Registry := fun w =>
  match ipython w with
  | None => Raise AttributeError w
  | Some sh => Return (formatters sh) w
  end.

Definition registry_setitem (key : string) (f : Formatter) : M unit := fun w =>
  match ipython w with
  | None => Raise AttributeError w
  | Some sh => Return tt (set_formatters (<[key := f]> (formatters sh)) w)
  end.

(** Modelled from the spec: the dispatch table of the host (IPython's
    BaseFormatter, which is not part of this repository), as section 6 of the
    spec describes it: a mapping from value type to callback with
    install-for-type and remove-for-type, given a type or the names of its
    module and class.  [for_type] returns the callback registered so far (or
    [None]) and installs [func] unless [func] is [None]; [pop] removes the
    callback and returns it, and raises [KeyError] when there is none. *)
Definition for_type (key : string) (typ : type_key) (func : option callback)
  : M (option callback) :=
  f ← registry_getitem key;
  let oldfunc := f !! typ in
  match func with
  | Some c => registry_setitem key (<[typ := c]> f) ;; mret oldfunc
  | None => mret oldfunc
  end.

Definition for_type_by_name (key : string) (type_module type_name : string)
    (func : option callback) : M (option callback) :=
  for_type key (ByName type_module type_name) func.

Definition pop (key : string) (typ : type_key) : M callback :=
  f ← registry_getitem key;
  match f !! typ with
  | Some old => registry_setitem key (delete typ f) ;; mret old
  | None => raise KeyError
  end.

(** [pop] given the dotted name of a class, which the host splits at its last
    dot into module and class. *)
Definition pop_dotted (key : string) (dotted : string) : M callback :=
  match Str.rsplit_dot dotted with
  | Some (type_module, type_name) => pop key (ByName type_module type_name)
  | None => raise KeyError
  end.

(** Operations on a module-level dictionary. *)
Definition dict_contains (d : store) (key : string) : M bool := fun w =>
  Return (bool_decide (is_Some (originals d w !! key))) w.

Definition dict_setitem (d : store) (key : string) (v : option callback)
  : M unit := fun w =>
  Return tt (set_originals d (<[key := v]> (originals d w)) w).

Definition dict_pop (d : store) (key : string) : M (option callback) := fun w =>
  match originals d w !! key with
  | Some v => Return v (set_originals d (delete key (originals d w)) w)
  | None => Raise KeyError w
  end.

(** ** The module *)

Definition _INTRINSIC_MIME_TYPE : string :=
  "application/vnd.google.colaboratory.intrinsic+json".

(** Register _repr_intrinsic_type_ with the IPython display mechanism.  The
    new [_IntrinsicTypeFormatter] is an empty dispatch table. *)
Definition _register_intrinsic_mimetype : M pyvalue :=
  shell ← get_ipython;
  match shell with
  | None => mret VNone
  | Some sh =>
      match formatters sh !! _INTRINSIC_MIME_TYPE with
      | Some _ => mret VNone
      | None =>
          registry_setitem _INTRINSIC_MIME_TYPE ∅ ;;
          mret VNone
      end
  end.

(** Enables rich string representation. *)
Definition enable_string_repr : M pyvalue :=
  let key := _INTRINSIC_MIME_TYPE in
  present ← dict_contains OriginalString key;
  if negb present then
    _register_intrinsic_mimetype ;;
    shell ← get_ipython;
    match shell with
    | None => mret VNone
    | Some _ =>
        old ← for_type key (ByType "str") (Some Fn_string_intrinsic_repr);
        dict_setitem OriginalString key old ;;
        mret VNone
    end
  else mret VNone.

(** Restores the original IPython repr for strings. *)
Definition disable_string_repr : M pyvalue :=
  let key := _INTRINSIC_MIME_TYPE in
  present ← dict_contains OriginalString key;
  if (present : bool) then
    get_formatters ;;
    pop key (ByType "str") ;;
    original ← dict_pop OriginalString key;
    for_type key (ByType "str") original ;;
    mret VNone
  else mret VNone.

(** Enable colab's custom styling for pandas Styler objects. *)
Definition enable_df_style_formatter : M pyvalue :=
  let key : string := "text/html" in
  present ← dict_contains OriginalDf key;
  if (present : bool) then mret VNone
  else
    shell ← get_ipython;
    match shell with
    | None => mret VNone
    | Some _ =>
        old ← for_type_by_name key "pandas.io.formats.style" "Styler"
                (Some Fn_new_formatter);
        dict_setitem OriginalDf key old ;;
        mret VNone
    end.

(** Disable colab's custom styling for pandas Styler objects. *)
Definition disable_df_style_formatter : M pyvalue :=
  let key : string := "text/html" in
  present ← dict_contains OriginalDf key;
  if negb present then mret VNone
  else
    get_formatters ;;
    pop_dotted key "pandas.io.formats.style.Styler" ;;
    original ← dict_pop OriginalDf key;
    for_type_by_name key "pandas.io.formats.style" "Styler" original ;;
    mret VNone.

(** Enables dataframe metadata. *)
Definition enable_dataframe_metadata_repr : M pyvalue :=
  let key := _INTRINSIC_MIME_TYPE in
  present ← dict_contains OriginalDataframeMetadata key;
  if negb present then
    _register_intrinsic_mimetype ;;
    shell ← get_ipython;
    match shell with
    | None => mret VNone
    | Some _ =>
        old ← for_type_by_name key "pandas.core.frame" "DataFrame"
                (Some Fn_dataframe_intrinsic_repr);
        dict_setitem OriginalDataframeMetadata key old ;;
        mret VNone
    end
  else mret VNone.

(** The counterpart of [enable_dataframe_metadata_repr]. *)
Definition disable_dataframe_metadata_repr : M pyvalue :=
  let key := _INTRINSIC_MIME_TYPE in
  present ← dict_contains OriginalDataframeMetadata key;
  if (present : bool) then
    get_formatters ;;
    pop_dotted key "pandas.core.frame.DataFrame" ;;
    original ← dict_pop OriginalDataframeMetadata key;
    for_type_by_name key "pandas.core.frame" "DataFrame" original ;;
    mret VNone
  else mret VNone.

(** *** The intrinsic renderers *)

(** A payload is a Python dict with string keys and string values. *)
Abbreviation Payload := (gmap string string).

Definition _string_intrinsic_repr (_ : pyvalue) : Payload :=
  {[ "type" := "string" ]}.

(** [namespace.get(name)]; a namespace is a dict in insertion order. *)
Fixpoint ns_get (namespace : list (string * object)) (name : string)
  : option object :=
  match namespace with
  | [] => None
  | (k, v) :: rest => if String.eqb k name then Some v else ns_get rest name
  end.

(** [namespace[name]] *)
Definition ns_getitem (namespace : list (string * object)) (name : string)
  : result object :=
  match ns_get namespace name with
  | Some v => Ok v
  | None => Err KeyError
  end.

(** What the module uses of Python and that is not its own code, taken as
    parameters:
    - [isidentifier s] is [s.isidentifier()], which Python decides with the
      Unicode tables of identifier characters; all that is assumed of it is
      what it is on ASCII text;
    - [foreign_getitem_last v] is [v[-1]] for an object that is not a list: a
      dict gives the value at key -1, a dataframe its column -1, a string its
      last character, None raises TypeError, and so on;
    - [foreign_partition v] is the outcome of lines 156 and 157 on a last
      line [v] that is not a string: the exception that [v.partition('.')]
      or the test on its parts raises (bytes raise TypeError, a list
      AttributeError), or the three parts as text when they behave as
      strings (a string-like object). *)
Class Python : Type := {
  isidentifier : string -> bool;
  isidentifier_ascii :
    forall s, Str.is_ascii s = true -> isidentifier s = Str.ascii_isidentifier s;
  foreign_getitem_last : pyvalue -> result pyvalue;
  foreign_partition : pyvalue -> result (string * string * string);
}.

(** [v[-1]]: for a list its last element, or IndexError when it is empty. *)
Definition getitem_last {py : Python} (v : pyvalue) : result pyvalue :=
  match v with
  | VList items =>
      match last items with
      | Some x => Ok x
      | None => Err IndexError
      end
  | _ => foreign_getitem_last v
  end.

(** [v.partition('.')]: for a string its three parts. *)
Definition partition_dot {py : Python} (v : pyvalue)
  : result (string * string * string) :=
  match v with
  | VStr s => Ok (Str.partition "."%char s)
  | _ => foreign_partition v
  end.

(** [isinstance(v, pd.DataFrame)], where [v] may be the [None] of a failed
    [get]. *)
Definition isinstance_DataFrame (v : option object) : bool :=
  match v with
  | Some {| obj_value := VDataFrame _ |} => true
  | _ => false
  end.

(** The loop over [namespace.items()] of [_dataframe_intrinsic_repr]: the name
    at which it breaks, if it does. *)
Fixpoint scan_namespace (items : list (string * object)) (dataframe : object)
  : option string :=
  match items with
  | [] => None
  | (varname, var) :: rest =>
      if is_ dataframe var && negb (Str.startswith varname "_")
      then Some varname
      else scan_namespace rest dataframe
  end.

(** [len(v)] and [v.columns] *)
Definition len (v : pyvalue) : result Z :=
  match v with
  | VStr s => Ok (Z.of_nat (Str.code_points s))
  | VList items => Ok (Z.of_nat (List.length items))
  | VDataFrame df => Ok (df_len df)
  | VNone | VOpaque _ => Err TypeError
  end.

Definition columns (v : pyvalue) : result (list Series) :=
  match v with
  | VDataFrame df => Ok (df_columns df)
  | _ => Err AttributeError
  end.

Definition _MAX_DATAFRAME_ROWS : Z := 100000.
Definition _MAX_DATAFRAME_COLS : Z := 20.

(** Which dtypes [var(numeric_only=True)] keeps. *)
Definition is_numeric (d : dtype) : bool :=
  match d with
  | int64 | float64 | bool_ => true
  | datetime64 | object_ => false
  end.

Section Pandas.

Context {py : Python}.

(** The floating-point statistic and the text layout are the library's. *)
Variable number : Type.
Variable pd_var : list cell -> number.

(** One row of the frame that [assign] builds: the keyword arguments
    [name], [variance], [nunique], [dtype] and [example_value]. *)
Record SummaryRow : Type := {
  name : string;
  variance : option number;
  nunique : nat;
  dtype_ : dtype;
  example_value : cell;
}.

Variable pd_to_string : list SummaryRow -> string.

(** Any other failure inside the library calls. *)
Variable pd_failure : DataFrame -> option exn.

(** Modelled from the spec: what pandas (an external library) computes for
    the five keyword arguments of [assign], as section 4.4 of the spec says:
    per column its name, its variance (numeric columns only), its count of
    distinct values, its declared type and an example value drawn from the
    first row.  A column without a first row has no example value and the
    assignment raises. *)
Definition summary_row (c : Series) : result SummaryRow :=
  match head (s_values c) with
  | None => Err ValueError
  | Some v =>
      Ok {| name := s_name c;
            variance := if is_numeric (s_dtype c)
                        then Some (pd_var (s_values c)) else None;
            nunique := List.length (remove_dups (s_values c));
            dtype_ := s_dtype c;
            example_value := v |}
  end.

Fixpoint summary_rows (cols : list Series) : result (list SummaryRow) :=
  match cols with
  | [] => Ok []
  | c :: rest =>
      r ← summary_row c;
      rs ← summary_rows rest;
      Ok (r :: rs)
  end.

Definition pd_assign (df : DataFrame) : result (list SummaryRow) :=
  match pd_failure df with
  | Some e => Err e
  | None => summary_rows (df_columns df)
  end.

Definition as_DataFrame (v : pyvalue) : result DataFrame :=
  match v with
  | VDataFrame df => Ok df
  | _ => Err AttributeError
  end.

(** The body of the [try] of [_summarize_dataframe]. *)
Definition summarize_body (df : pyvalue) : result (option string) :=
  n ← len df;
  cols ← columns df;
  if (_MAX_DATAFRAME_ROWS <? n)
     || (_MAX_DATAFRAME_COLS <? Z.of_nat (List.length cols))
  then Ok None
  else
    frame ← as_DataFrame df;
    table ← pd_assign frame;
    Ok (Some (pd_to_string table)).

(** Summarizes a dataframe. *)
Definition _summarize_dataframe (df : pyvalue) : option string :=
  match summarize_body df with
  | Ok r => r
  | Err _ => None
  end.

(** The name resolution of [_dataframe_intrinsic_repr]: the payload so far
    and the object to summarize. *)
Definition resolve_variable_name (w : World) (result0 : Payload)
    (dataframe : object) : result (Payload * object) :=
  match ipython w with
  | Some ip =>
      let namespace := user_ns ip in
      match scan_namespace namespace dataframe with
      | Some varname => Ok (<["variable_name" := varname]> result0, dataframe)
      | None =>
          history ← ns_getitem namespace "In";
          last_line ← getitem_last (obj_value history);
          parts ← partition_dot last_line;
          let '(varname, dot, operator) := parts in
          if isidentifier varname && Str.truthy dot
             && Str.startswith operator "head("
          then
            let possible_df := ns_get namespace varname in
            match possible_df with
            | Some o =>
                if isinstance_DataFrame possible_df
                then Ok (<["variable_name" := varname]> result0, o)
                else Ok (result0, dataframe)
            | None => Ok (result0, dataframe)
            end
          else Ok (result0, dataframe)
      end
  | None => Ok (result0, dataframe)
  end.

(** Annotates a dataframe repr with some metadata about the object. *)
Definition _dataframe_intrinsic_repr (w : World) (dataframe : object)
  : result Payload :=
  let result0 : Payload := {[ "type" := "dataframe" ]} in
  resolved ← resolve_variable_name w result0 dataframe;
  let '(result1, dataframe1) := resolved in
  match _summarize_dataframe (obj_value dataframe1) with
  | Some summary =>
      if Str.truthy summary
      then Ok (<["summary" := summary]> result1)
      else Ok result1
  | None => Ok result1
  end.

End Pandas.

(** ** The toggles, uniformly *)

Inductive toggle : Set :=
| StringRepr
| DfStyleFormatter
| DataframeMetadataRepr.

Definition enable (t : toggle) : M pyvalue :=
  match t with
  | StringRepr => enable_string_repr
  | DfStyleFormatter => enable_df_style_formatter
  | DataframeMetadataRepr => enable_dataframe_metadata_repr
  end.

Definition disable (t : toggle) : M pyvalue :=
  match t with
  | StringRepr => disable_string_repr
  | DfStyleFormatter => disable_df_style_formatter
  | DataframeMetadataRepr => disable_dataframe_metadata_repr
  end.

(** The formatter key of a toggle, the dictionary that holds its saved
    callback and the callback it installs. *)
Definition toggle_mime (t : toggle) : string :=
  match t with
  | StringRepr => _INTRINSIC_MIME_TYPE
  | DfStyleFormatter => "text/html"
  | DataframeMetadataRepr => _INTRINSIC_MIME_TYPE
  end.

Definition toggle_type (t : toggle) : type_key :=
  match t with
  | StringRepr => ByType "str"
  | DfStyleFormatter => ByName "pandas.io.formats.style" "Styler"
  | DataframeMetadataRepr => ByName "pandas.core.frame" "DataFrame"
  end.

Definition toggle_store (t : toggle) : store :=
  match t with
  | StringRepr => OriginalString
  | DfStyleFormatter => OriginalDf
  | DataframeMetadataRepr => OriginalDataframeMetadata
  end.

Definition toggle_callback (t : toggle) : callback :=
  match t with
  | StringRepr => Fn_string_intrinsic_repr
  | DfStyleFormatter => Fn_new_formatter
  | DataframeMetadataRepr => Fn_dataframe_intrinsic_repr
  end.

(** The callback registered in a slot of the registry, [None] when there is
    no shell, no dispatch table or no callback. *)
Definition registered (mime : string) (typ : type_key) (w : World)
  : option callback :=
  sh ← ipython w;
  f ← formatters sh !! mime;
  f !! typ.

Definition slot (t : toggle) (w : World) : option callback :=
  registered (toggle_mime t) (toggle_type t) w.

(** The saved callback of a toggle: [None] when nothing is saved,
    [Some None] when "no callback" is saved. *)
Definition record (t : toggle) (w : World) : option (option callback) :=
  originals (toggle_store t) w !! toggle_mime t.

(** The registry of the active shell, if any. *)
Definition registry (w : World) : option Registry :=
  formatters <$> ipython w.

Global Instance toggle_eq_dec : EqDecision toggle.
Proof. solve_decision. Defined.

(** ** Example worlds *)

(** A shell as the host starts it (a dispatch table for
    text/html, the history in [In]) and no saved callback. *)
Definition fresh_shell : Shell :=
  {| formatters := {[ "text/html" := ∅ ]};
     user_ns := [("In", {| obj_id := 0; obj_value := VList [VStr ""] |})] |}.

Definition with_shell (sh : option Shell) (w : World) : World :=
  {| ipython := sh;
     _original_string_formatters := _original_string_formatters w;
     _original_df_formatters := _original_df_formatters w;
     _original_dataframe_metadata_formatters :=
       _original_dataframe_metadata_formatters w |}.

Definition no_shell_world : World :=
  {| ipython := None;
     _original_string_formatters := ∅;
     _original_df_formatters := ∅;
     _original_dataframe_metadata_formatters := ∅ |}.

Definition fresh_world : World := with_shell (Some fresh_shell) no_shell_world.

(** The world after [enable_string_repr()] in a fresh shell. *)
Definition enabled_world : World :=
  world_after (enable StringRepr fresh_world).

(** ** Vocabulary of the statements about the renderers *)

Arguments name {number} _.
Arguments variance {number} _.
Arguments nunique {number} _.
Arguments dtype_ {number} _.
Arguments example_value {number} _.
Arguments summary_row {number} pd_var c.
Arguments summary_rows {number} pd_var cols.
Arguments pd_assign {number} pd_var pd_failure df.
Arguments summarize_body {number} pd_var pd_to_string pd_failure df.
Arguments _summarize_dataframe {number} pd_var pd_to_string pd_failure df.
Arguments _dataframe_intrinsic_repr {py number} pd_var pd_to_string pd_failure
  w dataframe.

(** The payload of the dataframe renderer with the given optional fields. *)
Definition payload (variable_name summary : option string) : Payload :=
  let result0 : Payload := {[ "type" := "dataframe" ]} in
  let result1 :=
    match variable_name with
    | Some v => <["variable_name" := v]> result0
    | None => result0
    end in
  match summary with
  | Some s => <["summary" := s]> result1
  | None => result1
  end.

(** The summary field of the payload for the object that is summarized: a
    summary that is [None] or empty is left out. *)
Definition summary_field {number} (pd_var : list cell -> number)
    (pd_to_string : list (SummaryRow number) -> string)
    (pd_failure : DataFrame -> option exn) (target : object) : option string :=
  match _summarize_dataframe pd_var pd_to_string pd_failure (obj_value target) with
  | Some summary => if Str.truthy summary then Some summary else None
  | None => None
  end.

(** The test on the last input line: [name.head(...]. *)
Definition head_call_pattern {py : Python} (last_line : string) : bool :=
  let '(varname, dot, operator) := Str.partition "."%char last_line in
  isidentifier varname && Str.truthy dot
  && Str.startswith operator "head(".

(** What the fallback resolves from the last input line: the name before
    [.head(] and the dataframe it is bound to. *)
Definition fallback_target {py : Python}
    (namespace : list (string * object)) (last_line : string)
  : option (string * object) :=
  if head_call_pattern last_line then
    let varname := fst (fst (Str.partition "."%char last_line)) in
    match ns_get namespace varname with
    | Some o => if isinstance_DataFrame (Some o) then Some (varname, o) else None
    | None => None
    end
  else None.

(** [c] does not occur in [s]. *)
Definition no_char (c : ascii) (s : string) : Prop :=
  Str.all_chars (fun x => negb (Ascii.eqb x c)) s = true.

(** The last input line reads [v.tail] with no dot in [v], [v] an identifier
    that the namespace binds to the dataframe [target], and [tail] beginning
    with [head(]. *)
Definition head_call {py : Python} (namespace : list (string * object))
    (line : string) (v tail : string) (target : object) : Prop :=
  line = v ++ String "."%char tail
  /\ no_char "."%char v
  /\ isidentifier v = true
  /\ Str.startswith tail "head(" = true
  /\ ns_get namespace v = Some target
  /\ isinstance_DataFrame (Some target) = true.

(** An entry of the namespace at which the identity scan stops. *)
Definition scan_hit (dataframe : object) (entry : string * object) : bool :=
  is_ dataframe (snd entry) && negb (Str.startswith (fst entry) "_").

(** The fallback can read the last input line: the namespace binds In to a
    sequence whose last element is the string [line]. *)
Definition last_input_line {py : Python} (ip : Shell) (line : string) : Prop :=
  exists history,
    ns_get (user_ns ip) "In" = Some history
    /\ getitem_last (obj_value history) = Ok (VStr line).

(** Name resolution has what it needs: no shell, or a name found by the
    identity scan, or a readable last input line. *)
Definition resolvable {py : Python} (w : World) (dataframe : object) : Prop :=
  match ipython w with
  | None => True
  | Some ip =>
      is_Some (scan_namespace (user_ns ip) dataframe)
      \/ exists line, last_input_line ip line
  end.

(** The same in terms of the three parts that line 156 obtains, whatever
    object the last input line is. *)
Definition fallback_of_parts {py : Python}
    (namespace : list (string * object)) (parts : string * string * string)
  : option (string * object) :=
  let '(varname, dot, operator) := parts in
  if isidentifier varname && Str.truthy dot && Str.startswith operator "head("
  then
    match ns_get namespace varname with
    | Some o => if isinstance_DataFrame (Some o) then Some (varname, o) else None
    | None => None
    end
  else None.

(** The three reads of the fallback succeed: the namespace binds In, the
    subscript [-1] returns, and [partition] gives [parts]. *)
Definition last_line_parts {py : Python} (ip : Shell)
    (parts : string * string * string) : Prop :=
  exists history last_line,
    ns_get (user_ns ip) "In" = Some history
    /\ getitem_last (obj_value history) = Ok last_line
    /\ partition_dot last_line = Ok parts.

(** No read of name resolution fails: no shell, or a name found by the
    identity scan, or the three reads of the fallback succeed. *)
Definition history_read {py : Python} (w : World) (dataframe : object) : Prop :=
  match ipython w with
  | None => True
  | Some ip =>
      is_Some (scan_namespace (user_ns ip) dataframe)
      \/ exists parts, last_line_parts ip parts
  end.

(** A row of the summary describes a column. *)
Definition describes {number} (pd_var : list cell -> number)
    (c : Series) (r : SummaryRow number) : Prop :=
  name r = s_name c
  /\ variance r
     = (if is_numeric (s_dtype c) then Some (pd_var (s_values c)) else None)
  /\ nunique r = List.length (remove_dups (s_values c))
  /\ dtype_ r = s_dtype c
  /\ head (s_values c) = Some (example_value r).

(** A stand-in for pandas and for Python's builtins in examples: integer
    statistics, a table rendered as its column names, no other failure of
    pandas; no identifier outside ASCII; the subscript of a string, of None and
    of a dataframe without a column -1, and no [partition] but that of
    strings. *)
Module Toy.

Definition python : Python :=
  {| isidentifier := Str.ascii_isidentifier;
     isidentifier_ascii := fun s _ => eq_refl;
     foreign_getitem_last := fun v =>
       match v with
       | VStr EmptyString => Err IndexError
       | VStr s => Ok (VStr (Str.last_char s))
       | VDataFrame _ => Err KeyError
       | _ => Err TypeError
       end;
     foreign_partition := fun _ => Err AttributeError |}.

Definition var (values : list cell) : Z := Z.of_nat (List.length values).

Definition to_string (rows : list (SummaryRow Z)) : string :=
  String.concat "," (map name rows).

Definition failure (_ : DataFrame) : option exn := None.

Definition _summarize_dataframe : pyvalue -> option string :=
  _summarize_dataframe var to_string failure.

Definition _dataframe_intrinsic_repr : World -> object -> result Payload :=
  _dataframe_intrinsic_repr (py := python) var to_string failure.

End Toy.

(** A dataframe shown after the user deleted In: it is bound to the
    underscore name only, and the namespace has no history. *)
Definition shown_frame : object :=
  {| obj_id := 1;
     obj_value := VDataFrame {| df_len := 2;
       df_columns := [ {| s_name := "a"; s_dtype := int64;
                          s_values := [CInt 1; CInt 2] |} ] |} |}.

Definition world_without_history : World :=
  with_shell
    (Some {| formatters := {[ "text/html" := ∅ ]};
             user_ns := [("_", shown_frame)] |})
    no_shell_world.

(** A frame bound to df and the truncated copy that [df.head()] displays. *)
Definition full_frame : object :=
  {| obj_id := 2;
     obj_value := VDataFrame {| df_len := 3;
       df_columns := [ {| s_name := "a"; s_dtype := int64;
                          s_values := [CInt 1; CInt 2; CInt 2] |};
                       {| s_name := "b"; s_dtype := object_;
                          s_values := [CStr "x"; CStr "y"; CStr "z"] |} ] |} |}.

Definition head_frame : object :=
  {| obj_id := 3;
     obj_value := VDataFrame {| df_len := 1;
       df_columns := [ {| s_name := "a"; s_dtype := int64;
                          s_values := [CInt 1] |};
                       {| s_name := "b"; s_dtype := object_;
                          s_values := [CStr "x"] |} ] |} |}.

Definition shell_after (last_line : string) : Shell :=
  {| formatters := {[ "text/html" := ∅ ]};
     user_ns := [ ("df", full_frame);
                  ("_", head_frame);
                  ("In", {| obj_id := 0;
                            obj_value := VList [VStr ""; VStr last_line] |}) ] |}.

Definition world_after_line (last_line : string) : World :=
  with_shell (Some (shell_after last_line)) no_shell_world.

(** ** The names of the module *)

(** What a top-level name of the module is bound to. *)
Inductive binding : Type :=
| Dictionary
| Constant
| Class
| Renderer
| Procedure (run : M pyvalue).

(** The top-level names of the module in source order, its imports aside. *)
Definition module_bindings : list (string * binding) :=
  [ ("_original_string_formatters", Dictionary);
    ("_original_df_formatters", Dictionary);
    ("_string_intrinsic_repr", Renderer);
    ("_INTRINSIC_MIME_TYPE", Constant);
    ("_IntrinsicTypeFormatter", Class);
    ("_register_intrinsic_mimetype", Procedure _register_intrinsic_mimetype);
    ("enable_string_repr", Procedure enable_string_repr);
    ("disable_string_repr", Procedure disable_string_repr);
    ("enable_df_style_formatter", Procedure enable_df_style_formatter);
    ("disable_df_style_formatter", Procedure disable_df_style_formatter);
    ("_original_dataframe_metadata_formatters", Dictionary);
    ("enable_dataframe_metadata_repr", Procedure enable_dataframe_metadata_repr);
    ("disable_dataframe_metadata_repr",
      Procedure disable_dataframe_metadata_repr);
    ("_dataframe_intrinsic_repr", Renderer);
    ("_MAX_DATAFRAME_ROWS", Constant);
    ("_MAX_DATAFRAME_COLS", Constant);
    ("_summarize_dataframe", Renderer) ].

(** A name is public unless it starts with an underscore. *)
Definition is_public (name : string) : bool := negb (Str.startswith name "_").

Definition public_surface : list (string * binding) :=
  List.filter (fun b => is_public (fst b)) module_bindings.

Definition public_names : list string := map fst public_surface.

(** [s] without the prefix [p], if it has it. *)
Fixpoint strip_prefix (p s : string) : option string :=
  match p, s with
  | EmptyString, _ => Some s
  | String a p', String b s' => if Ascii.eqb a b then strip_prefix p' s' else None
  | String _ _, EmptyString => None
  end.

(** The public names [enable_X] that have a public [disable_X], paired. *)
Definition public_pairs : list (string * string) :=
  omap (fun n =>
          match strip_prefix "enable_" n with
          | Some x =>
              if existsb (String.eqb ("disable_" ++ x)) public_names
              then Some (n, "disable_" ++ x)
              else None
          | None => None
          end) public_names.

(** The public names of a toggle. *)
Definition toggle_names (t : toggle) : string * string :=
  match t with
  | StringRepr => ("enable_string_repr", "disable_string_repr")
  | DfStyleFormatter =>
      ("enable_df_style_formatter", "disable_df_style_formatter")
  | DataframeMetadataRepr =>
      ("enable_dataframe_metadata_repr", "disable_dataframe_metadata_repr")
  end.

Definition toggle_bindings (t : toggle) : list (string * binding) :=
  [ (fst (toggle_names t), Procedure (enable t));
    (snd (toggle_names t), Procedure (disable t)) ].

(** ** Vocabulary of the statements about sequences of calls *)

(** The dispatch table a toggle works on once enabling has passed
    [_register_intrinsic_mimetype]: the one registered under its MIME type,
    or, for the two intrinsic toggles, the empty one that is registered when
    there is none.  The style formatter registers nothing. *)
Definition toggle_table (t : toggle) (reg : Registry) : option Formatter :=
  match reg !! toggle_mime t with
  | Some f => Some f
  | None =>
      match t with
      | DfStyleFormatter => None
      | StringRepr | DataframeMetadataRepr => Some ∅
      end
  end.

Global Instance store_eq_dec : EqDecision store.
Proof. solve_decision. Defined.

(** A call of one of the six public functions, and a script of such calls
    run in order; an exception ends the script. *)
Inductive call : Set :=
| Enable (t : toggle)
| Disable (t : toggle).

Definition run_call (c : call) : M pyvalue :=
  match c with
  | Enable t => enable t
  | Disable t => disable t
  end.

Fixpoint run_calls (cs : list call) : M pyvalue :=
  match cs with
  | [] => mret VNone
  | c :: rest => run_call c ;; run_calls rest
  end.

Definition call_toggle (c : call) : toggle :=
  match c with
  | Enable t => t
  | Disable t => t
  end.

(** A world in which every enabled toggle has its callback in its slot and
    an active shell has the dispatch table of text/html. *)
Definition healthy (w : World) : Prop :=
  (forall t, is_Some (record t w) -> slot t w = Some (toggle_callback t))
  /\ (forall sh, ipython w = Some sh -> is_Some (formatters sh !! "text/html")).

(** The world [w] keeps track of the callbacks of [w0]: for every toggle the
    callback that [w0] has in its slot is the saved one if the toggle is
    enabled and the one still in the slot otherwise, and the slots of no
    toggle hold what they hold in [w0]. *)
Definition tracks (w0 w : World) : Prop :=
  (forall t, match record t w with
             | Some r => r = slot t w0
             | None => slot t w = slot t w0
             end)
  /\ (forall mime typ,
        (forall t, (mime, typ) <> (toggle_mime t, toggle_type t)) ->
        registered mime typ w = registered mime typ w0).

(** The world that [enable] leaves, as a function of the world it starts in. *)
Definition after_enable (t : toggle) (w : World) : World :=
  match record t w, ipython w with
  | None, Some sh =>
      match toggle_table t (formatters sh) with
      | Some f =>
          set_originals (toggle_store t)
            (<[toggle_mime t := f !! toggle_type t]>
               (originals (toggle_store t) w))
            (set_formatters
               (<[toggle_mime t := <[toggle_type t := toggle_callback t]> f]>
                  (formatters sh)) w)
      | None => w
      end
  | _, _ => w
  end.

(** * Properties *)

(** ** Running the module's code *)

Lemma rsplit_dot_Styler :
  Str.rsplit_dot "pandas.io.formats.style.Styler"
  = Some ("pandas.io.formats.style", "Styler").
Proof. reflexivity. Qed.

Lemma rsplit_dot_DataFrame :
  Str.rsplit_dot "pandas.core.frame.DataFrame"
  = Some ("pandas.core.frame", "DataFrame").
Proof. reflexivity. Qed.

Lemma contains_true (m : Originals) (k : string) r :
  m !! k = Some r -> bool_decide (is_Some (m !! k)) = true.
Proof. intros ->. by apply bool_decide_eq_true_2. Qed.

Lemma contains_false (m : Originals) (k : string) :
  m !! k = None -> bool_decide (is_Some (m !! k)) = false.
Proof. intros ->. apply bool_decide_eq_false_2. by intros [? ?]. Qed.

Ltac unfold_module :=
  unfold enable, disable,
    enable_string_repr, disable_string_repr,
    enable_df_style_formatter, disable_df_style_formatter,
    enable_dataframe_metadata_repr, disable_dataframe_metadata_repr,
    _register_intrinsic_mimetype, for_type_by_name, pop_dotted;
  rewrite ?rsplit_dot_Styler, ?rsplit_dot_DataFrame;
  unfold for_type, pop, registry_getitem, registry_setitem, get_formatters,
    dict_contains, dict_setitem, dict_pop, get_ipython, raise,
    mbind, M_bind, mret, M_ret.

Ltac open_world w :=
  let sh := fresh "sh" in
  let reg := fresh "reg" in
  let ns := fresh "ns" in
  destruct w as [[[reg ns]|] ? ? ?].

(** A toggle whose callback is already saved is not enabled again. *)
Lemma enable_saved (t : toggle) (w : World) r :
  record t w = Some r -> enable t w = Return VNone w.
Proof.
  intros Hr. destruct t; unfold record in Hr; simpl in Hr;
    unfold_module; simpl; by rewrite (contains_true _ _ _ Hr).
Qed.

(** Without a shell, enabling does nothing. *)
Lemma enable_no_shell (t : toggle) (w : World) :
  ipython w = None -> enable t w = Return VNone w.
Proof.
  intros Hs. destruct t; unfold_module; simpl;
    case_bool_decide; simpl; rewrite ?Hs; try done.
Qed.

(** Nothing saved: disabling does nothing. *)
Lemma disable_not_saved (t : toggle) (w : World) :
  record t w = None -> disable t w = Return VNone w.
Proof.
  intros Hr. destruct t; unfold record in Hr; simpl in Hr;
    unfold_module; simpl; by rewrite (contains_false _ _ Hr).
Qed.

Ltac map_lookups :=
  repeat (rewrite ?lookup_insert_eq, ?lookup_delete_eq, ?lookup_empty; simpl).

(** With a shell and nothing saved, enabling saves the callback of the slot
    and installs the toggle's own.  The style formatter needs the dispatch
    table of text/html, which the module does not create. *)
Lemma enable_installs (t : toggle) (w : World) sh :
  record t w = None ->
  ipython w = Some sh ->
  (t = DfStyleFormatter -> is_Some (formatters sh !! "text/html")) ->
  exists w', enable t w = Return VNone w'
    /\ slot t w' = Some (toggle_callback t)
    /\ record t w' = Some (slot t w).
Proof.
  intros Hr Hs Ht. open_world w; simpl in Hs; [|done]. injection Hs as <-.
  destruct t; unfold record, slot, registered in *; simpl in *;
    unfold_module; simpl; rewrite (contains_false _ _ Hr); simpl.
  - destruct (reg !! _INTRINSIC_MIME_TYPE) as [f|] eqn:Hf; simpl.
    + rewrite Hf. eexists; split; [reflexivity|]. by map_lookups.
    + map_lookups. eexists; split; [reflexivity|]. by map_lookups.
  - destruct Ht as [f Hf]; [done|]. rewrite Hf.
    eexists; split; [reflexivity|]. by map_lookups.
  - destruct (reg !! _INTRINSIC_MIME_TYPE) as [f|] eqn:Hf; simpl.
    + rewrite Hf. eexists; split; [reflexivity|]. by map_lookups.
    + map_lookups. eexists; split; [reflexivity|]. by map_lookups.
Qed.

(** The one way for enabling to raise: the style formatter in a registry
    without a dispatch table for text/html.  The world is left as it was. *)
Lemma enable_raises (w : World) sh :
  record DfStyleFormatter w = None ->
  ipython w = Some sh ->
  formatters sh !! "text/html" = None ->
  enable DfStyleFormatter w = Raise KeyError w.
Proof.
  intros Hr Hs Hf. open_world w; simpl in Hs; [|done]. injection Hs as <-.
  unfold record in Hr; simpl in *. unfold_module; simpl.
  rewrite (contains_false _ _ Hr); simpl. by rewrite Hf.
Qed.

(** With a saved callback and a callback in the slot, disabling removes the
    latter, installs the former unless it is [None], and forgets it. *)
Lemma disable_restores (t : toggle) (w : World) r c :
  record t w = Some r ->
  slot t w = Some c ->
  exists w', disable t w = Return VNone w'
    /\ slot t w' = r
    /\ record t w' = None.
Proof.
  intros Hr Hc. open_world w; [|done].
  destruct t; unfold record, slot, registered in *; simpl in *;
    unfold_module; simpl; rewrite (contains_true _ _ _ Hr); simpl;
    match type of Hc with
    | context [reg !! ?k] =>
        destruct (reg !! k) as [f|] eqn:Hf; simpl in Hc; [|done]
    end;
    rewrite Hc; simpl; rewrite Hr; simpl; map_lookups;
    (destruct r as [c0|]; simpl; map_lookups;
     (eexists; split; [reflexivity|]; by map_lookups)).
Qed.

(** With a saved callback but no callback in the slot (no shell, no dispatch
    table or no entry), disabling raises and leaves the world as it was. *)
Lemma disable_raises (t : toggle) (w : World) r :
  record t w = Some r ->
  slot t w = None ->
  exists e, disable t w = Raise e w.
Proof.
  intros Hr Hc. open_world w.
  - destruct t; unfold record, slot, registered in *; simpl in *;
      unfold_module; simpl; rewrite (contains_true _ _ _ Hr); simpl;
      match type of Hc with
      | context [reg !! ?k] => destruct (reg !! k) as [f|] eqn:Hf; simpl in Hc
      end; rewrite ?Hc; by eexists.
  - destruct t; unfold record in Hr; simpl in *;
      unfold_module; simpl; rewrite (contains_true _ _ _ Hr); by eexists.
Qed.

(** Whatever enabling does, it either leaves the world as it was or leaves
    the toggle's callback saved. *)
Lemma enable_outcome (t : toggle) (w : World) :
  enable t w = Return VNone w
  \/ enable t w = Raise KeyError w
  \/ exists w', enable t w = Return VNone w' /\ is_Some (record t w').
Proof.
  destruct (record t w) as [r|] eqn:Hr.
  { left. by eapply enable_saved. }
  destruct (ipython w) as [sh|] eqn:Hs.
  2:{ left. by apply enable_no_shell. }
  destruct (decide (t = DfStyleFormatter)) as [->|Hne].
  - destruct (formatters sh !! "text/html") as [f|] eqn:Hf.
    + destruct (enable_installs DfStyleFormatter w sh Hr Hs) as (w' & He & _ & Hr').
      { intros _. by rewrite Hf. }
      right; right. exists w'. by rewrite Hr'.
    + right; left. by eapply enable_raises.
  - destruct (enable_installs t w sh Hr Hs) as (w' & He & _ & Hr'); [done|].
    right; right. exists w'. by rewrite Hr'.
Qed.

(** A disable that returns leaves nothing saved. *)
Lemma disable_forgets (t : toggle) (w w' : World) v :
  disable t w = Return v w' -> record t w' = None.
Proof.
  intros Hd. destruct (record t w) as [r|] eqn:Hr.
  - destruct (slot t w) as [c|] eqn:Hc.
    + destruct (disable_restores t w r c Hr Hc) as (w'' & Hd' & _ & Hr').
      rewrite Hd' in Hd. by injection Hd as _ <-.
    + destruct (disable_raises t w r Hr Hc) as (e & Hd').
      by rewrite Hd' in Hd.
  - rewrite (disable_not_saved t w Hr) in Hd. by injection Hd as _ <-.
Qed.

(** ** The toggles *)

(** C3. For every toggle and every starting state, enabling twice in a row
    leaves the registry and the saved-callback dictionaries in the same state
    as enabling once: the second call ends as the first did and changes
    nothing. *)
Theorem enable_twice_is_enable_once (t : toggle) (w : World) :
  world_after (enable t (world_after (enable t w))) = world_after (enable t w)
  /\ match enable t w with
     | Return _ w' => enable t w' = Return VNone w'
     | Raise e w' => enable t w' = Raise e w'
     end.
Proof.
  destruct (enable_outcome t w) as [He|[He|(w' & He & [r Hr])]]; rewrite He; simpl.
  - by rewrite He.
  - by rewrite He.
  - by rewrite (enable_saved t w' r Hr).
Qed.

(** C4. For every toggle, disabling when no callback is saved for it (no
    enable has taken effect, or a first disable has already returned) returns
    at once without raising and leaves the whole world, the registry
    included, unchanged. *)
Theorem disable_without_enable_is_noop (t : toggle) (w : World)
    (H : record t w = None \/ exists w0 v, disable t w0 = Return v w) :
  disable t w = Return VNone w
  /\ registry (world_after (disable t w)) = registry w.
Proof.
  assert (Hr : record t w = None).
  { destruct H as [H|(w0 & v & H)]; [done|]. by eapply disable_forgets. }
  by rewrite (disable_not_saved t w Hr).
Qed.

Lemma disable_without_enable_is_noop_witness :
  (record StringRepr fresh_world = None
   \/ exists w0 v, disable StringRepr w0 = Return v fresh_world)
  /\ disable StringRepr fresh_world = Return VNone fresh_world
  /\ registry (world_after (disable StringRepr fresh_world))
     = registry fresh_world.
Proof.
  split; [left; reflexivity|].
  apply (disable_without_enable_is_noop StringRepr fresh_world).
  left; reflexivity.
Defined.

(** C1, as stated, fails when the toggle is already enabled: after one
    [enable_string_repr()] in a fresh shell the slot of [str] holds the
    module's renderer; a second enable does nothing, and the disable that
    follows restores the callback saved by the first enable (none), not the
    one registered before the second. *)
Lemma enable_disable_already_enabled :
  slot StringRepr enabled_world = Some Fn_string_intrinsic_repr
  /\ record StringRepr enabled_world = Some None
  /\ slot StringRepr
       (world_after (disable StringRepr
          (world_after (enable StringRepr enabled_world)))) = None.
Proof. vm_compute. done. Qed.

(** C1 (amended). For every toggle and every prior state in which no callback
    is saved for the toggle (it is not already enabled), enabling and then
    disabling restores the callback of the toggle's slot to exactly the one
    registered before the enable, the absent one included, and leaves no
    saved callback behind. *)
Theorem enable_disable_restores (t : toggle) (w : World)
    (Hr : record t w = None) :
  slot t (world_after (disable t (world_after (enable t w)))) = slot t w
  /\ record t (world_after (disable t (world_after (enable t w)))) = None.
Proof.
  assert (Hnoop : enable t w = Return VNone w \/ enable t w = Raise KeyError w
                  -> world_after (enable t w) = w).
  { by intros [-> | ->]. }
  destruct (ipython w) as [sh|] eqn:Hs.
  2:{ rewrite Hnoop by (left; by apply enable_no_shell).
      by rewrite (disable_not_saved t w Hr). }
  destruct (decide (t = DfStyleFormatter
                    /\ formatters sh !! "text/html" = None)) as [[-> Hf]|Hok].
  { rewrite Hnoop by (right; by eapply enable_raises).
    by rewrite (disable_not_saved _ w Hr). }
  destruct (enable_installs t w sh Hr Hs) as (w' & He & Hc & Hr').
  { intros ->. destruct (formatters sh !! "text/html") eqn:Hf; [done|].
    by destruct Hok. }
  rewrite He; simpl.
  destruct (disable_restores t w' _ _ Hr' Hc) as (w'' & Hd & Hc'' & Hr'').
  by rewrite Hd.
Qed.

Lemma enable_disable_restores_witness :
  record DfStyleFormatter fresh_world = None
  /\ slot DfStyleFormatter
       (world_after (disable DfStyleFormatter
          (world_after (enable DfStyleFormatter fresh_world))))
     = slot DfStyleFormatter fresh_world
  /\ record DfStyleFormatter
       (world_after (disable DfStyleFormatter
          (world_after (enable DfStyleFormatter fresh_world)))) = None.
Proof.
  split; [reflexivity|].
  apply (enable_disable_restores DfStyleFormatter fresh_world).
  reflexivity.
Defined.

(** C10, as stated, fails in two ways.  A toggle that is already enabled
    when its shell goes away stays marked enabled through an enable without
    a shell: the disable that follows raises AttributeError instead of doing
    nothing, and an enable under a new shell installs nothing.  And the style
    formatter, enabled under a shell whose registry has no dispatch table for
    text/html after an enable without a shell, raises KeyError and installs
    nothing. *)
Lemma enable_without_shell_not_inert :
  (ipython (with_shell None enabled_world) = None
   /\ enable StringRepr (with_shell None enabled_world)
      = Return VNone (with_shell None enabled_world)
   /\ record StringRepr
        (world_after (enable StringRepr (with_shell None enabled_world)))
      = Some None
   /\ disable StringRepr
        (world_after (enable StringRepr (with_shell None enabled_world)))
      = Raise AttributeError (with_shell None enabled_world)
   /\ slot StringRepr
        (world_after
           (enable StringRepr
              (with_shell (Some fresh_shell)
                 (world_after
                    (enable StringRepr (with_shell None enabled_world))))))
      = None)
  /\ (enable DfStyleFormatter no_shell_world = Return VNone no_shell_world
      /\ enable DfStyleFormatter
           (with_shell (Some {| formatters := ∅; user_ns := [] |})
              (world_after (enable DfStyleFormatter no_shell_world)))
         = Raise KeyError
             (with_shell (Some {| formatters := ∅; user_ns := [] |})
                no_shell_world)).
Proof. vm_compute. repeat split. Qed.

(** C10 (amended). If a toggle that is not enabled is enabled while no shell
    is active, no callback is saved and nothing in the world changes; so a disable that
    follows does nothing, and an enable that follows once a shell is active
    (with the host's dispatch table for text/html, in the case of the style
    formatter) still installs the toggle's callback and saves the one that
    was in the slot. *)
Theorem enable_without_shell_is_inert (t : toggle) (w : World) (sh : Shell)
    (Hs : ipython w = None) (Hr : record t w = None)
    (Hhtml : t = DfStyleFormatter -> is_Some (formatters sh !! "text/html")) :
  enable t w = Return VNone w
  /\ record t (world_after (enable t w)) = None
  /\ disable t (world_after (enable t w)) = Return VNone w
  /\ exists w',
       enable t (with_shell (Some sh) (world_after (enable t w)))
       = Return VNone w'
       /\ slot t w' = Some (toggle_callback t)
       /\ record t w' = Some (slot t (with_shell (Some sh) w)).
Proof.
  rewrite (enable_no_shell t w Hs); simpl.
  split; [done|]. split; [done|]. split; [by apply disable_not_saved|].
  apply (enable_installs t _ sh); [by destruct t|done|done].
Qed.

Lemma enable_without_shell_is_inert_witness :
  enable StringRepr no_shell_world = Return VNone no_shell_world
  /\ record StringRepr (world_after (enable StringRepr no_shell_world)) = None
  /\ disable StringRepr (world_after (enable StringRepr no_shell_world))
     = Return VNone no_shell_world
  /\ exists w',
       enable StringRepr
         (with_shell (Some fresh_shell)
            (world_after (enable StringRepr no_shell_world)))
       = Return VNone w'
       /\ slot StringRepr w' = Some (toggle_callback StringRepr)
       /\ record StringRepr w'
          = Some (slot StringRepr (with_shell (Some fresh_shell) no_shell_world)).
Proof.
  apply (enable_without_shell_is_inert StringRepr no_shell_world fresh_shell).
  - reflexivity.
  - reflexivity.
  - intros _. by eexists.
Defined.

(** ** The renderers and the summarizer *)

(** C6. For every input value, whatever its content, the string renderer
    returns exactly the mapping with the one key type, bound to string. *)
Theorem string_intrinsic_repr_constant (x : pyvalue) :
  _string_intrinsic_repr x = {[ "type" := "string" ]}
  /\ _string_intrinsic_repr x !! "type" = Some "string"
  /\ dom (_string_intrinsic_repr x) = ({[ "type" ]} : gset string).
Proof.
  unfold _string_intrinsic_repr. split; [done|]. split.
  - apply lookup_singleton_eq.
  - apply dom_singleton_L.
Qed.

Section Summarizer.

Context {number : Type}.
Variable pd_var : list cell -> number.
Variable pd_to_string : list (SummaryRow number) -> string.
Variable pd_failure : DataFrame -> option exn.

Local Abbreviation summarize :=
  (_summarize_dataframe pd_var pd_to_string pd_failure).

Lemma summary_row_describes (c : Series) (r : SummaryRow number) :
  summary_row pd_var c = Ok r -> describes pd_var c r.
Proof.
  unfold summary_row, describes.
  destruct (head (s_values c)) as [v|]; [|done].
  intros [= <-]. by simpl.
Qed.

Lemma summary_rows_describe (cols : list Series) :
  forall rows, summary_rows pd_var cols = Ok rows ->
               Forall2 (describes pd_var) cols rows.
Proof.
  induction cols as [|c cols IH]; simpl; intros rows H.
  - injection H as <-. constructor.
  - unfold mbind, result_bind in H.
    destruct (summary_row pd_var c) as [r|] eqn:Hr; [|done].
    destruct (summary_rows pd_var cols) as [rs|]; [|done].
    injection H as <-. constructor; [by apply summary_row_describes|by apply IH].
Qed.

(** What [_summarize_dataframe] returns on a dataframe, by cases. *)
Lemma summarize_dataframe_cases (df : DataFrame) :
  summarize (VDataFrame df)
  = if (_MAX_DATAFRAME_ROWS <? df_len df)
       || (_MAX_DATAFRAME_COLS <? Z.of_nat (List.length (df_columns df)))
    then None
    else match pd_assign pd_var pd_failure df with
         | Ok table => Some (pd_to_string table)
         | Err _ => None
         end.
Proof.
  unfold _summarize_dataframe, summarize_body; simpl.
  unfold mbind, result_bind; simpl.
  destruct (_ || _); [done|].
  by destruct (pd_assign pd_var pd_failure df).
Qed.

(** Building the rows fails exactly on a column without a first row. *)
Lemma summary_rows_cases (cols : list Series) :
  (exists rows, summary_rows pd_var cols = Ok rows
                /\ Forall (fun c => s_values c <> []) cols)
  \/ (exists e, summary_rows pd_var cols = Err e
                /\ Exists (fun c => s_values c = []) cols).
Proof.
  induction cols as [|c cols IH]; simpl.
  - left. by exists [].
  - unfold mbind, result_bind, summary_row.
    destruct (s_values c) as [|v vs] eqn:Hv; simpl.
    + right. exists ValueError. split; [done|]. by left.
    + destruct IH as [(rows & -> & Hall)|(e & -> & Hex)].
      * left. eexists. split; [done|]. constructor; [by rewrite Hv|done].
      * right. exists e. split; [done|]. by right.
Qed.

(** C5. For every dataframe the summarizer returns no summary exactly when
    the row count exceeds 100,000, or the column count exceeds 20, or the
    computation fails (a failure inside pandas, or a column without a first
    row to take the example value from); a dataframe of 100,001 rows has no
    summary; within the bounds and without such a failure a summary is
    produced; and a summary is the text of a table with one row per column,
    in order, holding the column's name, its variance (none for a column that
    is not numeric), its count of distinct values, its declared type and the
    value of its first row. *)
Theorem summarize_dataframe_spec (df : DataFrame) :
  (summarize (VDataFrame df) = None
   <-> (100000 < df_len df
        \/ 20 < Z.of_nat (List.length (df_columns df))
        \/ is_Some (pd_failure df)
        \/ Exists (fun c => s_values c = []) (df_columns df)))
  /\ (df_len df = 100001 -> summarize (VDataFrame df) = None)
  /\ (df_len df <= 100000 ->
      Z.of_nat (List.length (df_columns df)) <= 20 ->
      pd_failure df = None ->
      Forall (fun c => s_values c <> []) (df_columns df) ->
      exists rows,
        summarize (VDataFrame df) = Some (pd_to_string rows)
        /\ Forall2 (describes pd_var) (df_columns df) rows
        /\ List.length rows = List.length (df_columns df))
  /\ (forall s, summarize (VDataFrame df) = Some s ->
        exists rows,
          s = pd_to_string rows
          /\ Forall2 (describes pd_var) (df_columns df) rows
          /\ List.length rows = List.length (df_columns df)
          /\ Forall2 (fun c r => is_numeric (s_dtype c) = false
                                 -> variance r = None)
               (df_columns df) rows).
Proof.
  rewrite summarize_dataframe_cases.
  unfold _MAX_DATAFRAME_ROWS, _MAX_DATAFRAME_COLS, pd_assign.
  split; [|split; [|split]].
  - destruct (100000 <? df_len df) eqn:Hrows; simpl.
    { apply Z.ltb_lt in Hrows. tauto. }
    apply Z.ltb_ge in Hrows.
    destruct (20 <? _) eqn:Hcols.
    { apply Z.ltb_lt in Hcols. tauto. }
    apply Z.ltb_ge in Hcols.
    destruct (pd_failure df) as [e|] eqn:Hfail.
    { split; [|done]. intros _. right; right; left. by eexists. }
    destruct (summary_rows_cases (df_columns df))
      as [(rows & -> & Hall)|(e & -> & Hex)].
    + split; [done|]. intros [?|[?|[[? ?]|Hex]]]; [lia|lia|done|].
      apply Exists_exists in Hex as (c & Hc & Hnil).
      rewrite Forall_forall in Hall. by destruct (Hall c Hc).
    + split; [|done]. intros _. by right; right; right.
  - intros ->. reflexivity.
  - intros Hrows Hcols Hfail Hall.
    apply Z.ltb_ge in Hrows, Hcols. rewrite Hrows, Hcols, Hfail; simpl.
    destruct (summary_rows_cases (df_columns df))
      as [(rows & Hr & _)|(e & _ & Hex)].
    + rewrite Hr. exists rows. split; [done|].
      pose proof (summary_rows_describe _ _ Hr) as Hd. split; [done|].
      symmetry. by eapply Forall2_length.
    + apply Exists_exists in Hex as (c & Hc & Hnil).
      rewrite Forall_forall in Hall. by destruct (Hall c Hc).
  - intros s H. destruct (_ || _); [done|].
    destruct (pd_failure df); [done|].
    destruct (summary_rows pd_var (df_columns df)) as [rows|] eqn:Hrows; [|done].
    injection H as <-. exists rows.
    pose proof (summary_rows_describe _ _ Hrows) as Hall.
    split; [done|]. split; [done|]. split.
    + symmetry. by eapply Forall2_length.
    + eapply Forall2_impl; [exact Hall|].
      intros c r (_ & Hv & _) Hn. by rewrite Hn in Hv.
Qed.

End Summarizer.

(** ** The payload *)

Lemma payload_type (vn sm : option string) :
  payload vn sm !! "type" = Some "dataframe".
Proof. unfold payload. by destruct vn, sm; simplify_map_eq. Qed.

Lemma payload_variable_name (vn sm : option string) :
  payload vn sm !! "variable_name" = vn.
Proof. unfold payload. by destruct vn, sm; simplify_map_eq. Qed.

Lemma payload_summary (vn sm : option string) :
  payload vn sm !! "summary" = sm.
Proof. unfold payload. by destruct vn, sm; simplify_map_eq. Qed.

Lemma payload_dom (vn sm : option string) :
  dom (payload vn sm) ⊆ ({[ "type"; "variable_name"; "summary" ]} : gset string).
Proof.
  unfold payload. destruct vn, sm; rewrite ?dom_insert_L, dom_singleton_L;
    set_unfold; tauto.
Qed.

(** ** Strings *)

Lemma partition_spec (sep : ascii) (s : string) :
  forall h d t, Str.partition sep s = (h, d, t) ->
    no_char sep h
    /\ ((d = String sep EmptyString /\ s = h ++ String sep t)
        \/ (d = EmptyString /\ t = EmptyString /\ s = h)).
Proof.
  unfold no_char. induction s as [|c r IH]; simpl; intros h d t H.
  - injection H as <- <- <-. split; [done|]. by right.
  - destruct (Ascii.eqb c sep) eqn:Hc.
    + injection H as <- <- <-. apply Ascii.eqb_eq in Hc as ->.
      split; [done|]. by left.
    + destruct (Str.partition sep r) as [[h' d'] t'].
      injection H as <- <- <-.
      destruct (IH h' d' t' eq_refl) as [Hno Hcase]. simpl.
      rewrite Hc, Hno. split; [done|].
      destruct Hcase as [[-> ->]|(-> & -> & ->)]; [by left|by right].
Qed.

(** ** Strings, continued *)

Lemma partition_app (sep : ascii) (h t : string) :
  no_char sep h ->
  Str.partition sep (h ++ String sep t) = (h, String sep EmptyString, t).
Proof.
  unfold no_char. induction h as [|c h IH]; simpl.
  - intros _. by rewrite Ascii.eqb_refl.
  - intros H. apply andb_true_iff in H as [Hc Hh].
    apply negb_true_iff in Hc. rewrite Hc. by rewrite (IH Hh).
Qed.

Lemma fallback_target_spec {py : Python} (namespace : list (string * object))
    (line v : string) (target : object) :
  fallback_target namespace line = Some (v, target)
  <-> exists tail, head_call namespace line v tail target.
Proof.
  unfold fallback_target, head_call_pattern, head_call. split.
  - destruct (Str.partition "." line) as [[h d] t] eqn:Hp; cbn [fst].
    destruct (isidentifier h) eqn:Hid; cbn [andb]; [|done].
    destruct (Str.truthy d) eqn:Hd; cbn [andb]; [|done].
    destruct (Str.startswith t "head(") eqn:Hst; [|done].
    destruct (ns_get namespace h) as [o|] eqn:Ho; [|done].
    destruct (isinstance_DataFrame (Some o)) eqn:Hinst; [|done].
    intros [= <- <-]. exists t.
    destruct (partition_spec _ _ _ _ _ Hp) as [Hno [[-> ->]|(-> & _)]]; [done|done].
  - intros (tail & -> & Hno & Hid & Hst & Hget & Hinst).
    rewrite (partition_app _ _ _ Hno); cbn [fst Str.truthy].
    by rewrite Hid, Hst, Hget, Hinst.
Qed.

Lemma scan_namespace_spec (d : object) (namespace : list (string * object))
    (n : string) :
  scan_namespace namespace d = Some n
  <-> exists pre v post,
        namespace = (pre ++ (n, v) :: post)%list
        /\ scan_hit d (n, v) = true
        /\ Forall (fun e => scan_hit d e = false) pre.
Proof.
  unfold scan_hit. induction namespace as [|[k x] rest IH]; simpl.
  - split; [done|]. intros (pre & v & post & H & _). by destruct pre.
  - destruct (is_ d x && negb (Str.startswith k "_")) eqn:Hhit.
    + split.
      * intros [= <-]. by exists [], x, rest.
      * intros (pre & v & post & H & Hv & Hpre).
        destruct pre as [|e pre]; simpl in H.
        { by injection H as -> _ _. }
        injection H as <- _. apply Forall_cons in Hpre as [He _].
        simpl in He. congruence.
    + rewrite IH. split.
      * intros (pre & v & post & -> & Hv & Hpre).
        exists ((k, x) :: pre), v, post. split; [done|]. split; [done|].
        by constructor.
      * intros (pre & v & post & H & Hv & Hpre).
        destruct pre as [|e pre]; simpl in H.
        { injection H as <- <- _. simpl in Hv. congruence. }
        injection H as _ ->. apply Forall_cons in Hpre as [_ Hpre].
        by exists pre, v, post.
Qed.

(** ** The dataframe renderer *)

Section Renderer.

Context {py : Python} {number : Type}.
Variable pd_var : list cell -> number.
Variable pd_to_string : list (SummaryRow number) -> string.
Variable pd_failure : DataFrame -> option exn.

Local Abbreviation summarize :=
  (_summarize_dataframe pd_var pd_to_string pd_failure).
Local Abbreviation field := (summary_field pd_var pd_to_string pd_failure).
Local Abbreviation render :=
  (_dataframe_intrinsic_repr pd_var pd_to_string pd_failure).

(** The renderer in terms of what name resolution gives. *)
Lemma render_no_shell (w : World) (d : object) :
  ipython w = None -> render w d = Ok (payload None (field d)).
Proof.
  intros Hs. unfold _dataframe_intrinsic_repr, resolve_variable_name,
    summary_field, payload.
  rewrite Hs; simpl. by destruct (summarize _) as [txt|]; [destruct (Str.truthy txt)|].
Qed.

Lemma render_scan_hit (w : World) (ip : Shell) (d : object) (v : string) :
  ipython w = Some ip ->
  scan_namespace (user_ns ip) d = Some v ->
  render w d = Ok (payload (Some v) (field d)).
Proof.
  intros Hs Hv. unfold _dataframe_intrinsic_repr, resolve_variable_name,
    summary_field, payload.
  rewrite Hs, Hv; simpl.
  by destruct (summarize _) as [txt|]; [destruct (Str.truthy txt)|].
Qed.

Lemma render_fallback (w : World) (ip : Shell) (d : object) (line : string) :
  ipython w = Some ip ->
  scan_namespace (user_ns ip) d = None ->
  last_input_line ip line ->
  render w d
  = Ok (match fallback_target (user_ns ip) line with
        | Some (v, o) => payload (Some v) (field o)
        | None => payload None (field d)
        end).
Proof.
  intros Hs Hv (h & Hin & Hlast).
  unfold _dataframe_intrinsic_repr, resolve_variable_name, ns_getitem,
    fallback_target, head_call_pattern, summary_field, payload.
  rewrite Hs, Hv, Hin; simpl. rewrite Hlast; simpl.
  destruct (Str.partition "." line) as [[varname dot] operator]; simpl.
  destruct (_ && _); simpl.
  - destruct (ns_get (user_ns ip) varname) as [o|]; simpl.
    + destruct o as [oid []]; simpl;
        by destruct (summarize _) as [txt|]; [destruct (Str.truthy txt)|].
    + by destruct (summarize _) as [txt|]; [destruct (Str.truthy txt)|].
  - by destruct (summarize _) as [txt|]; [destruct (Str.truthy txt)|].
Qed.

(** The same for any object as last input line, in terms of the parts that
    [partition] gives. *)
Lemma render_parts (w : World) (ip : Shell) (d : object)
    (parts : string * string * string) :
  ipython w = Some ip ->
  scan_namespace (user_ns ip) d = None ->
  last_line_parts ip parts ->
  render w d
  = Ok (match fallback_of_parts (user_ns ip) parts with
        | Some (v, o) => payload (Some v) (field o)
        | None => payload None (field d)
        end).
Proof.
  intros Hs Hv (h & l & Hin & Hlast & Hparts).
  unfold _dataframe_intrinsic_repr, resolve_variable_name, ns_getitem,
    fallback_of_parts, summary_field, payload.
  rewrite Hs, Hv, Hin; simpl. rewrite Hlast; simpl. rewrite Hparts; simpl.
  destruct parts as [[varname dot] operator]; simpl.
  destruct (_ && _); simpl.
  - destruct (ns_get (user_ns ip) varname) as [o|]; simpl.
    + destruct o as [oid []]; simpl;
        by destruct (summarize _) as [txt|]; [destruct (Str.truthy txt)|].
    + by destruct (summarize _) as [txt|]; [destruct (Str.truthy txt)|].
  - by destruct (summarize _) as [txt|]; [destruct (Str.truthy txt)|].
Qed.

(** When the scan finds nothing, the renderer returns only if the three
    reads of the fallback succeed. *)
Lemma render_ok_reads_parts (w : World) (ip : Shell) (d : object) p :
  ipython w = Some ip ->
  scan_namespace (user_ns ip) d = None ->
  render w d = Ok p ->
  exists parts, last_line_parts ip parts.
Proof.
  intros Hs Hv. unfold _dataframe_intrinsic_repr, resolve_variable_name,
    ns_getitem, last_line_parts.
  rewrite Hs, Hv; simpl.
  destruct (ns_get (user_ns ip) "In") as [h|]; simpl; [|done].
  destruct (getitem_last (obj_value h)) as [l|] eqn:Hlast; simpl; [|done].
  destruct (partition_dot l) as [parts|] eqn:Hparts; simpl; [|done].
  intros _. by exists parts, h, l.
Qed.

(** C2 (amended). For every dataframe and every state in which name
    resolution has what it reads (no shell is active, or the identity scan
    finds a name, or the namespace binds In to a sequence whose last element
    is a string), the renderer returns a payload that maps type to
    dataframe and has no key besides type, variable_name and summary; it
    does not raise, and a summarization that fails leaves summary out. *)
Theorem render_returns_payload (w : World) (d : object)
    (H : resolvable w d) :
  exists vn target,
    render w d = Ok (payload vn (field target))
    /\ payload vn (field target) !! "type" = Some "dataframe"
    /\ dom (payload vn (field target))
       ⊆ ({[ "type"; "variable_name"; "summary" ]} : gset string)
    /\ (summarize (obj_value target) = None
        -> payload vn (field target) !! "summary" = None).
Proof.
  assert (Hfield : forall vn target,
    payload vn (field target) !! "type" = Some "dataframe"
    /\ dom (payload vn (field target))
       ⊆ ({[ "type"; "variable_name"; "summary" ]} : gset string)
    /\ (summarize (obj_value target) = None
        -> payload vn (field target) !! "summary" = None)).
  { intros vn target. split; [apply payload_type|].
    split; [apply payload_dom|].
    intros Hnone. rewrite payload_summary. unfold summary_field.
    by rewrite Hnone. }
  unfold resolvable in H.
  destruct (ipython w) as [ip|] eqn:Hs.
  - destruct (scan_namespace (user_ns ip) d) as [v|] eqn:Hv.
    + exists (Some v), d. split; [by eapply render_scan_hit|apply Hfield].
    + destruct H as [[? ?]|[line Hline]]; [done|].
      rewrite (render_fallback w ip d line Hs Hv Hline).
      destruct (fallback_target (user_ns ip) line) as [[v o]|].
      * exists (Some v), o. split; [done|apply Hfield].
      * exists None, d. split; [done|apply Hfield].
  - exists None, d. split; [by apply render_no_shell|apply Hfield].
Qed.

(** C7. When the identity scan finds no match and the last input line can
    be read, the renderer sets variable_name only through the fallback, and
    then exactly when the line splits at its first dot into an identifier
    that the namespace binds to a dataframe and a tail beginning with
    head(; the summary is then computed against that dataframe, not against
    the displayed object.  So with df bound to a dataframe T and the last
    line df.head(), variable_name is df and the summary is that of T. *)
Theorem fallback_resolves_head_call (w : World) (ip : Shell) (d : object)
    (line : string)
    (Hs : ipython w = Some ip)
    (Hscan : scan_namespace (user_ns ip) d = None)
    (Hline : last_input_line ip line) :
  (forall p v, render w d = Ok p -> p !! "variable_name" = Some v ->
     exists tail target,
       head_call (user_ns ip) line v tail target
       /\ p = payload (Some v) (field target))
  /\ (forall v tail target, head_call (user_ns ip) line v tail target ->
        render w d = Ok (payload (Some v) (field target)))
  /\ (line = "df.head()" ->
      forall T tf, ns_get (user_ns ip) "df" = Some T ->
        obj_value T = VDataFrame tf ->
        render w d = Ok (payload (Some "df") (field T))
        /\ payload (Some "df") (field T) !! "variable_name" = Some "df"
        /\ payload (Some "df") (field T) !! "summary" = field T).
Proof.
  pose proof (render_fallback w ip d line Hs Hscan Hline) as Hr.
  assert (Hwhen : forall v tail target,
    head_call (user_ns ip) line v tail target ->
    render w d = Ok (payload (Some v) (field target))).
  { intros v tail target Hc. rewrite Hr.
    assert (Hf : fallback_target (user_ns ip) line = Some (v, target)).
    { apply fallback_target_spec. by exists tail. }
    by rewrite Hf. }
  split; [|split; [exact Hwhen|]].
  - intros p v Hp Hv. rewrite Hr in Hp. injection Hp as <-.
    destruct (fallback_target (user_ns ip) line) as [[v' o]|] eqn:Hf.
    + rewrite payload_variable_name in Hv. injection Hv as ->.
      apply fallback_target_spec in Hf as [tail Hc].
      by exists tail, o.
    + by rewrite payload_variable_name in Hv.
  - intros -> T tf HT Hval.
    split; [|split; [apply payload_variable_name|apply payload_summary]].
    apply (Hwhen "df" "head()" T).
    unfold head_call. repeat split; try done.
    + by rewrite isidentifier_ascii.
    + destruct T as [tid tv]. simpl in Hval. by subst tv.
Qed.

(** C8. The identity scan goes through the namespace in its order and
    returns the first name that does not start with an underscore and is
    bound to the very object displayed (the entries before it are no such
    match), and that name becomes variable_name; if no entry matches and
    the last input line does not have the shape of the fallback, as
    print(df) does not, the payload has no variable_name. *)
Theorem identity_scan_first_match (w : World) (ip : Shell) (d : object)
    (Hs : ipython w = Some ip) :
  (forall n, scan_namespace (user_ns ip) d = Some n
     <-> exists pre v post,
           user_ns ip = (pre ++ (n, v) :: post)%list
           /\ is_ d v && negb (Str.startswith n "_") = true
           /\ Forall (fun e => is_ d (snd e)
                               && negb (Str.startswith (fst e) "_") = false)
                pre)
  /\ (forall n, scan_namespace (user_ns ip) d = Some n ->
        render w d = Ok (payload (Some n) (field d)))
  /\ (forall line, scan_namespace (user_ns ip) d = None ->
        last_input_line ip line ->
        head_call_pattern line = false ->
        exists p, render w d = Ok p /\ p !! "variable_name" = None)
  /\ head_call_pattern "print(df)" = false.
Proof.
  split; [|split; [|split]].
  - intros n. apply scan_namespace_spec.
  - intros n Hn. by eapply render_scan_hit.
  - intros line Hscan Hline Hpat.
    rewrite (render_fallback w ip d line Hs Hscan Hline).
    unfold fallback_target. rewrite Hpat.
    eexists; split; [done|]. apply payload_variable_name.
  - unfold head_call_pattern; simpl. by rewrite andb_false_r.
Qed.

End Renderer.

(** C2, as stated, fails: a shell is active, the displayed frame is bound to
    the underscore name only, and the namespace has no In (the user deleted
    it); the identity scan finds nothing and reading the last input line
    raises KeyError out of the renderer. *)
Lemma render_raises_without_history :
  Toy._dataframe_intrinsic_repr world_without_history shown_frame
  = Err KeyError.
Proof. vm_compute. reflexivity. Qed.

Lemma render_returns_payload_witness :
  resolvable (py := Toy.python) fresh_world shown_frame
  /\ exists vn target,
       Toy._dataframe_intrinsic_repr fresh_world shown_frame
       = Ok (payload vn (summary_field Toy.var Toy.to_string Toy.failure target))
       /\ payload vn (summary_field Toy.var Toy.to_string Toy.failure target)
          !! "type" = Some "dataframe"
       /\ dom (payload vn
                 (summary_field Toy.var Toy.to_string Toy.failure target))
          ⊆ ({[ "type"; "variable_name"; "summary" ]} : gset string)
       /\ (Toy._summarize_dataframe (obj_value target) = None
           -> payload vn
                (summary_field Toy.var Toy.to_string Toy.failure target)
              !! "summary" = None).
Proof.
  assert (H : resolvable (py := Toy.python) fresh_world shown_frame).
  { right. exists "", {| obj_id := 0; obj_value := VList [VStr ""] |}.
    split; reflexivity. }
  split; [exact H|].
  exact (render_returns_payload (py := Toy.python)
           Toy.var Toy.to_string Toy.failure
           fresh_world shown_frame H).
Defined.

Example summarize_full_frame :
  Toy._summarize_dataframe (obj_value full_frame) = Some "a,b".
Proof. reflexivity. Qed.

Example summarize_too_many_rows :
  Toy._summarize_dataframe
    (VDataFrame {| df_len := 100001; df_columns := [] |}) = None.
Proof. reflexivity. Qed.

Example summarize_exactly_max_rows :
  Toy._summarize_dataframe
    (VDataFrame {| df_len := 100000; df_columns := [] |}) = Some "".
Proof. reflexivity. Qed.

Lemma fallback_resolves_head_call_witness :
  ipython (world_after_line "df.head()") = Some (shell_after "df.head()")
  /\ scan_namespace (user_ns (shell_after "df.head()")) head_frame = None
  /\ last_input_line (py := Toy.python) (shell_after "df.head()") "df.head()"
  /\ Toy._dataframe_intrinsic_repr (world_after_line "df.head()") head_frame
     = Ok (payload (Some "df")
             (summary_field Toy.var Toy.to_string Toy.failure full_frame)).
Proof.
  assert (Hline : last_input_line (py := Toy.python)
                    (shell_after "df.head()") "df.head()").
  { eexists. split; reflexivity. }
  split; [reflexivity|]. split; [reflexivity|]. split; [exact Hline|].
  exact (proj1 (proj2 (proj2 (fallback_resolves_head_call (py := Toy.python)
           Toy.var Toy.to_string Toy.failure
           (world_after_line "df.head()") (shell_after "df.head()")
           head_frame "df.head()" eq_refl eq_refl Hline))
         eq_refl full_frame _ eq_refl eq_refl)).
Defined.

Example head_call_not_tail :
  Toy._dataframe_intrinsic_repr (world_after_line "df.tail()") head_frame
  = Ok (payload None
          (summary_field Toy.var Toy.to_string Toy.failure head_frame)).
Proof. vm_compute. reflexivity. Qed.

Example scan_skips_underscore_and_stops :
  scan_namespace
    [("_1", head_frame); ("df", full_frame); ("top", head_frame);
     ("again", head_frame)] head_frame = Some "top".
Proof. reflexivity. Qed.

Lemma identity_scan_first_match_witness :
  ipython (world_after_line "print(df)") = Some (shell_after "print(df)")
  /\ scan_namespace (user_ns (shell_after "print(df)")) head_frame = None
  /\ exists p,
       Toy._dataframe_intrinsic_repr (world_after_line "print(df)") head_frame
       = Ok p
       /\ p !! "variable_name" = None.
Proof.
  split; [reflexivity|]. split; [reflexivity|].
  apply (proj1 (proj2 (proj2 (identity_scan_first_match (py := Toy.python)
           Toy.var Toy.to_string Toy.failure
           (world_after_line "print(df)") (shell_after "print(df)")
           head_frame eq_refl))) "print(df)").
  - reflexivity.
  - eexists. split; reflexivity.
  - reflexivity.
Defined.

(** ** The public surface *)

Lemma enable_returns_None (t : toggle) (w : World) :
  match enable t w with
  | Return v _ => v = VNone
  | Raise _ _ => True
  end.
Proof.
  by destruct (enable_outcome t w) as [->|[->|(w' & -> & _)]].
Qed.

Lemma disable_returns_None (t : toggle) (w : World) :
  match disable t w with
  | Return v _ => v = VNone
  | Raise _ _ => True
  end.
Proof.
  destruct (record t w) as [r|] eqn:Hr.
  - destruct (slot t w) as [c|] eqn:Hc.
    + by destruct (disable_restores t w r c Hr Hc) as (w' & -> & _).
    + by destruct (disable_raises t w r Hr Hc) as (e & ->).
  - by rewrite (disable_not_saved t w Hr).
Qed.

(** C9, as stated, fails: the module has three enable/disable pairs, not
    four. *)
Lemma public_pairs_not_four :
  List.length public_pairs = 3%nat
  /\ (List.length public_pairs =? 4)%nat = false.
Proof. split; reflexivity. Qed.

(** C9 (amended). The public surface of the module is three enable/disable
    function pairs, one per feature (string intrinsic repr, dataframe style
    formatter, dataframe metadata repr), and nothing else; each of the six
    functions acts on the world only and, when it returns, returns None. *)
Theorem public_surface_three_pairs :
  public_surface
  = flat_map toggle_bindings
      [StringRepr; DfStyleFormatter; DataframeMetadataRepr]
  /\ public_pairs
     = map toggle_names [StringRepr; DfStyleFormatter; DataframeMetadataRepr]
  /\ Forall (fun b =>
               match snd b with
               | Procedure run =>
                   forall w, match run w with
                             | Return v _ => v = VNone
                             | Raise _ _ => True
                             end
               | _ => False
               end) public_surface.
Proof.
  split; [reflexivity|]. split; [reflexivity|].
  unfold public_surface; simpl.
  repeat constructor; simpl; intros w.
  - apply (enable_returns_None StringRepr).
  - apply (disable_returns_None StringRepr).
  - apply (enable_returns_None DfStyleFormatter).
  - apply (disable_returns_None DfStyleFormatter).
  - apply (enable_returns_None DataframeMetadataRepr).
  - apply (disable_returns_None DataframeMetadataRepr).
Qed.



(** * Further properties of the module *)

(** ** What a call does to the world *)

Lemma enable_effect (t : toggle) (w : World) sh f :
  record t w = None ->
  ipython w = Some sh ->
  toggle_table t (formatters sh) = Some f ->
  enable t w
  = Return VNone
      (set_originals (toggle_store t)
         (<[toggle_mime t := f !! toggle_type t]> (originals (toggle_store t) w))
         (set_formatters
            (<[toggle_mime t := <[toggle_type t := toggle_callback t]> f]>
               (formatters sh)) w)).
Proof.
  intros Hr Hs Hf. open_world w; simpl in Hs; [|done]. injection Hs as <-.
  unfold toggle_table in Hf.
  destruct t; unfold record in Hr; simpl in *;
    unfold_module; simpl; rewrite (contains_false _ _ Hr); simpl;
    match type of Hf with
    | context [reg !! ?k] => destruct (reg !! k) as [f0|] eqn:Hf0
    end; simplify_eq; simpl; rewrite ?Hf0; map_lookups;
    rewrite ?insert_insert_eq; done.
Qed.

Lemma disable_effect (t : toggle) (w : World) sh f r c :
  record t w = Some r ->
  ipython w = Some sh ->
  formatters sh !! toggle_mime t = Some f ->
  f !! toggle_type t = Some c ->
  disable t w
  = Return VNone
      (set_originals (toggle_store t)
         (delete (toggle_mime t) (originals (toggle_store t) w))
         (set_formatters
            (<[toggle_mime t :=
                 match r with
                 | Some c0 => <[toggle_type t := c0]> (delete (toggle_type t) f)
                 | None => delete (toggle_type t) f
                 end]> (formatters sh)) w)).
Proof.
  intros Hr Hs Hf Hc. open_world w; simpl in Hs; [|done]. injection Hs as <-.
  destruct t; unfold record in Hr; simpl in *;
    unfold_module; simpl; rewrite (contains_true _ _ _ Hr); simpl;
    rewrite Hf, Hc; simpl; rewrite Hr; simpl; map_lookups;
    destruct r as [c0|]; simpl; map_lookups; rewrite ?insert_insert_eq; done.
Qed.

(** Reading the world after a state update. *)
Lemma originals_set_originals (d d' : store) (m : Originals) (w : World) :
  originals d' (set_originals d m w)
  = if decide (d = d') then m else originals d' w.
Proof. by destruct d, d'. Qed.

Lemma originals_set_formatters (d : store) (r : Registry) (w : World) :
  originals d (set_formatters r w) = originals d w.
Proof. by destruct d. Qed.

Lemma ipython_set_originals (d : store) (m : Originals) (w : World) :
  ipython (set_originals d m w) = ipython w.
Proof. by destruct d. Qed.

Lemma registered_set_originals (d : store) (m : Originals) (w : World)
    (mime : string) (typ : type_key) :
  registered mime typ (set_originals d m w) = registered mime typ w.
Proof. unfold registered. by rewrite ipython_set_originals. Qed.

Lemma registered_set_formatters (r : Registry) (w : World) sh
    (mime : string) (typ : type_key) :
  ipython w = Some sh ->
  registered mime typ (set_formatters r w) = r !! mime ≫= (.!! typ).
Proof. intros Hs. unfold registered, set_formatters; simpl. by rewrite Hs. Qed.

Lemma user_ns_set_formatters (r : Registry) (w : World) :
  user_ns <$> ipython (set_formatters r w) = user_ns <$> ipython w.
Proof. unfold set_formatters; simpl. by destruct (ipython w). Qed.

Lemma toggle_store_inj (t t' : toggle) : toggle_store t = toggle_store t' -> t = t'.
Proof. by destruct t, t'. Qed.

Lemma toggle_key_inj (t t' : toggle) :
  toggle_mime t = toggle_mime t' -> toggle_type t = toggle_type t' -> t = t'.
Proof. by destruct t, t'. Qed.

Lemma restore_table (f : Formatter) (typ : type_key) (cb : callback) :
  match f !! typ with
  | Some c0 => <[typ := c0]> (delete typ (<[typ := cb]> f))
  | None => delete typ (<[typ := cb]> f)
  end = f.
Proof.
  destruct (f !! typ) as [c0|] eqn:Hc.
  - by rewrite insert_delete_eq, insert_insert_eq, insert_id.
  - by rewrite delete_insert_eq, delete_id.
Qed.

(** Every enable either leaves the world as it was or has the effect of
    [enable_effect]. *)
Lemma enable_cases (t : toggle) (w : World) :
  world_after (enable t w) = w
  \/ exists sh f,
       ipython w = Some sh
       /\ record t w = None
       /\ toggle_table t (formatters sh) = Some f
       /\ world_after (enable t w)
          = set_originals (toggle_store t)
              (<[toggle_mime t := f !! toggle_type t]>
                 (originals (toggle_store t) w))
              (set_formatters
                 (<[toggle_mime t := <[toggle_type t := toggle_callback t]> f]>
                    (formatters sh)) w).
Proof.
  destruct (record t w) as [r|] eqn:Hr.
  { left. by rewrite (enable_saved t w r Hr). }
  destruct (ipython w) as [sh|] eqn:Hs.
  2:{ left. by rewrite (enable_no_shell t w Hs). }
  destruct (toggle_table t (formatters sh)) as [f|] eqn:Hf.
  - right. exists sh, f. by rewrite (enable_effect t w sh f Hr Hs Hf).
  - left. unfold toggle_table in Hf.
    destruct (formatters sh !! toggle_mime t) eqn:Hm; [done|].
    destruct t; try done. by rewrite (enable_raises w sh Hr Hs Hm).
Qed.

Lemma disable_cases (t : toggle) (w : World) :
  world_after (disable t w) = w
  \/ exists sh f r c,
       ipython w = Some sh
       /\ record t w = Some r
       /\ formatters sh !! toggle_mime t = Some f
       /\ f !! toggle_type t = Some c
       /\ world_after (disable t w)
          = set_originals (toggle_store t)
              (delete (toggle_mime t) (originals (toggle_store t) w))
              (set_formatters
                 (<[toggle_mime t :=
                      match r with
                      | Some c0 =>
                          <[toggle_type t := c0]> (delete (toggle_type t) f)
                      | None => delete (toggle_type t) f
                      end]> (formatters sh)) w).
Proof.
  destruct (record t w) as [r|] eqn:Hr.
  2:{ left. by rewrite (disable_not_saved t w Hr). }
  destruct (slot t w) as [c|] eqn:Hc.
  2:{ left. by destruct (disable_raises t w r Hr Hc) as [e ->]. }
  right. unfold slot, registered in Hc.
  destruct (ipython w) as [sh|] eqn:Hs; [|done]. simpl in Hc.
  destruct (formatters sh !! toggle_mime t) as [f|] eqn:Hf; [|done].
  simpl in Hc. exists sh, f, r, c.
  by rewrite (disable_effect t w sh f r c Hr Hs Hf Hc).
Qed.

(** ** Each call touches one slot and one saved callback *)

(** X1. A call of any of the six public functions changes, at most, the
    callback of its own slot in the registry and its own entry in its own
    dictionary of saved callbacks: every other (MIME type, value type) slot
    reads as before, every other entry of the three dictionaries reads as
    before, and the user namespace is untouched. *)
Theorem call_frame (c : call) (w : World) :
  (forall mime typ,
     (mime, typ) <> (toggle_mime (call_toggle c), toggle_type (call_toggle c)) ->
     registered mime typ (world_after (run_call c w)) = registered mime typ w)
  /\ (forall d k,
        (d, k) <> (toggle_store (call_toggle c), toggle_mime (call_toggle c)) ->
        originals d (world_after (run_call c w)) !! k = originals d w !! k)
  /\ user_ns <$> ipython (world_after (run_call c w)) = user_ns <$> ipython w.
Proof.
  assert (Hreg : forall t sh (g f0 : Formatter) m' w0,
    ipython w0 = Some sh ->
    (forall typ, typ <> toggle_type t ->
       g !! typ = formatters sh !! toggle_mime t ≫= (.!! typ)) ->
    forall mime typ, (mime, typ) <> (toggle_mime t, toggle_type t) ->
    registered mime typ
      (set_originals (toggle_store t) m'
         (set_formatters (<[toggle_mime t := g]> (formatters sh)) w0))
    = registered mime typ w0).
  { intros t sh g f0 m' w0 Hs Hg mime typ Hne.
    rewrite registered_set_originals, (registered_set_formatters _ _ sh) by done.
    unfold registered. rewrite Hs; simpl.
    destruct (decide (mime = toggle_mime t)) as [->|Hm].
    - rewrite lookup_insert_eq; simpl. apply Hg. congruence.
    - by rewrite lookup_insert_ne. }
  assert (Horig : forall t m' r0 w0 d k,
    (forall k', k' <> toggle_mime t ->
       m' !! k' = originals (toggle_store t) w0 !! k') ->
    (d, k) <> (toggle_store t, toggle_mime t) ->
    originals d (set_originals (toggle_store t) m' (set_formatters r0 w0)) !! k
    = originals d w0 !! k).
  { intros t m' r0 w0 d k Hm Hne. rewrite originals_set_originals.
    case_decide as Hd; [|by rewrite originals_set_formatters].
    subst d. apply Hm. congruence. }
  assert (Hns : forall t m' r0 w0,
    user_ns <$> ipython (set_originals (toggle_store t) m' (set_formatters r0 w0))
    = user_ns <$> ipython w0).
  { intros. by rewrite ipython_set_originals, user_ns_set_formatters. }
  destruct c as [t|t]; simpl.
  - destruct (enable_cases t w) as [->|(sh & f & Hs & Hr & Hf & ->)]; [done|].
    split; [|split; [|apply Hns]].
    + apply (Hreg t sh _ f); [done|]. intros typ Hne.
      rewrite lookup_insert_ne by done. unfold toggle_table in Hf.
      destruct (formatters sh !! toggle_mime t) as [f'|]; simpl.
      * by injection Hf as ->.
      * destruct t; simplify_eq; by rewrite lookup_empty.
    + intros d k. apply Horig. intros k' Hk. by rewrite lookup_insert_ne.
  - destruct (disable_cases t w)
      as [->|(sh & f & r & c & Hs & Hr & Hf & Hc & ->)]; [done|].
    split; [|split; [|apply Hns]].
    + apply (Hreg t sh _ f); [done|]. intros typ Hne. rewrite Hf; simpl.
      destruct r as [c0|]; rewrite ?lookup_insert_ne by done;
        by rewrite lookup_delete_ne.
    + intros d k. apply Horig. intros k' Hk. by rewrite lookup_delete_ne.
Qed.

(** ** Enable and disable as a round trip on the whole world *)

(** X2. In a shell, for a toggle that is not enabled and has a dispatch
    table to work on, enable and then disable both return, and the world they
    leave is the first one with that dispatch table registered under the
    toggle's MIME type: the very same world when the table was registered
    before, and otherwise (an intrinsic toggle in a registry without the
    intrinsic MIME type) the first world plus an empty dispatch table. *)
Theorem enable_disable_round_trip (t : toggle) (w : World) (sh : Shell)
    (f : Formatter)
    (Hr : record t w = None)
    (Hs : ipython w = Some sh)
    (Hf : toggle_table t (formatters sh) = Some f) :
  exists w1,
    enable t w = Return VNone w1
    /\ disable t w1
       = Return VNone (set_formatters (<[toggle_mime t := f]> (formatters sh)) w)
    /\ (formatters sh !! toggle_mime t = Some f ->
        set_formatters (<[toggle_mime t := f]> (formatters sh)) w = w)
    /\ (formatters sh !! toggle_mime t = None -> f = ∅).
Proof.
  eexists. split; [by apply (enable_effect t w sh f)|].
  split; [|split].
  - open_world w; simpl in Hs; [|done]. injection Hs as <-.
    rewrite (disable_effect t _
               {| formatters :=
                    <[toggle_mime t := <[toggle_type t := toggle_callback t]> f]>
                      reg;
                  user_ns := ns |}
               (<[toggle_type t := toggle_callback t]> f)
               (f !! toggle_type t) (toggle_callback t)).
    + f_equal. rewrite restore_table.
      destruct t; unfold record in Hr; simpl in *;
        by rewrite insert_insert_eq, delete_insert_eq, delete_id.
    + unfold record. rewrite originals_set_originals.
      case_decide; [|done]. by rewrite lookup_insert_eq.
    + by rewrite ipython_set_originals.
    + simpl. by rewrite lookup_insert_eq.
    + by rewrite lookup_insert_eq.
  - intros Hm. open_world w; simpl in Hs; [|done]. injection Hs as <-.
    simpl in Hm. unfold set_formatters; simpl. by rewrite insert_id.
  - intros Hm. unfold toggle_table in Hf. rewrite Hm in Hf.
    destruct t; by simplify_eq.
Qed.

Lemma enable_disable_round_trip_witness :
  exists w1,
    enable DfStyleFormatter fresh_world = Return VNone w1
    /\ disable DfStyleFormatter w1 = Return VNone fresh_world.
Proof.
  destruct (enable_disable_round_trip DfStyleFormatter fresh_world
              fresh_shell ∅ eq_refl eq_refl eq_refl)
    as (w1 & He & Hd & Hsame & _).
  exists w1. split; [exact He|].
  rewrite (Hsame eq_refl) in Hd. exact Hd.
Defined.

(** ** Errors of the toggles *)

(** X3. An enabled toggle whose shell is gone: disabling reads the registry
    of no shell and raises AttributeError, where enabling checks for the shell
    and returns; neither changes the world, so the callback stays saved. *)
Theorem disable_without_shell_raises (t : toggle) (w : World)
    (r : option callback)
    (Hr : record t w = Some r)
    (Hs : ipython w = None) :
  disable t w = Raise AttributeError w
  /\ enable t w = Return VNone w.
Proof.
  split; [|by apply enable_no_shell].
  open_world w; [done|].
  destruct t; unfold record in Hr; simpl in *;
    unfold_module; simpl; by rewrite (contains_true _ _ _ Hr).
Qed.

Lemma disable_without_shell_raises_witness :
  disable StringRepr (with_shell None enabled_world)
  = Raise AttributeError (with_shell None enabled_world)
  /\ enable StringRepr (with_shell None enabled_world)
     = Return VNone (with_shell None enabled_world).
Proof.
  apply (disable_without_shell_raises StringRepr
           (with_shell None enabled_world) None); reflexivity.
Defined.

(** X4. An enabled toggle whose slot holds no callback any more (the
    dispatch table is gone, or the entry has been removed from it): disabling
    raises KeyError from the lookup of the table or from [pop], before the
    saved callback is taken out of its dictionary; the world is unchanged, the
    toggle is still enabled and enabling it again does nothing. *)
Theorem disable_missing_callback_raises (t : toggle) (w : World) (sh : Shell)
    (r : option callback)
    (Hr : record t w = Some r)
    (Hs : ipython w = Some sh)
    (Hc : slot t w = None) :
  disable t w = Raise KeyError w
  /\ record t (world_after (disable t w)) = Some r
  /\ enable t (world_after (disable t w)) = Return VNone w.
Proof.
  assert (Hd : disable t w = Raise KeyError w).
  { open_world w; simpl in Hs; [|done]. injection Hs as <-.
    destruct t; unfold record, slot, registered in *; simpl in *;
      unfold_module; simpl; rewrite (contains_true _ _ _ Hr); simpl;
      match type of Hc with
      | context [reg !! ?k] => destruct (reg !! k) as [f|] eqn:Hf; simpl in Hc
      end; by rewrite ?Hc. }
  rewrite Hd; simpl. split; [done|]. split; [done|]. by eapply enable_saved.
Qed.

Lemma disable_missing_callback_raises_witness :
  disable StringRepr (with_shell (Some fresh_shell) enabled_world)
  = Raise KeyError (with_shell (Some fresh_shell) enabled_world)
  /\ record StringRepr
       (world_after
          (disable StringRepr (with_shell (Some fresh_shell) enabled_world)))
     = Some None
  /\ enable StringRepr
       (world_after
          (disable StringRepr (with_shell (Some fresh_shell) enabled_world)))
     = Return VNone (with_shell (Some fresh_shell) enabled_world).
Proof.
  apply (disable_missing_callback_raises StringRepr
           (with_shell (Some fresh_shell) enabled_world) fresh_shell None);
    reflexivity.
Defined.

(** X5. Enabling an intrinsic toggle (string repr, dataframe metadata) never
    raises, because the dispatch table it needs is registered first.
    Enabling the style formatter raises exactly when it is not enabled yet, a
    shell is active and the registry has no dispatch table for text/html.
    Whenever an enable raises, it raises KeyError and leaves the world as it
    was. *)
Theorem enable_raises_iff (t : toggle) (w : World) :
  (t <> DfStyleFormatter -> exists w', enable t w = Return VNone w')
  /\ ((exists e w', enable DfStyleFormatter w = Raise e w')
      <-> (record DfStyleFormatter w = None
           /\ exists sh, ipython w = Some sh
                         /\ formatters sh !! "text/html" = None))
  /\ (forall e w', enable t w = Raise e w' -> e = KeyError /\ w' = w).
Proof.
  split; [|split].
  - intros Ht. destruct (record t w) as [r|] eqn:Hr.
    { exists w. by eapply enable_saved. }
    destruct (ipython w) as [sh|] eqn:Hs.
    2:{ exists w. by apply enable_no_shell. }
    destruct (enable_installs t w sh Hr Hs) as (w' & He & _); [done|].
    by exists w'.
  - split.
    + intros (e & w' & He).
      destruct (record DfStyleFormatter w) as [r|] eqn:Hr.
      { by rewrite (enable_saved _ w r Hr) in He. }
      destruct (ipython w) as [sh|] eqn:Hs.
      2:{ by rewrite (enable_no_shell _ w Hs) in He. }
      destruct (formatters sh !! "text/html") as [f|] eqn:Hf.
      { destruct (enable_installs DfStyleFormatter w sh Hr Hs) as (w1 & He1 & _).
        - intros _. by rewrite Hf.
        - by rewrite He1 in He. }
      split; [done|]. by exists sh.
    + intros (Hr & sh & Hs & Hf). exists KeyError, w. by eapply enable_raises.
  - intros e w' He.
    destruct (enable_outcome t w) as [H|[H|(w1 & H & _)]];
      rewrite H in He; by simplify_eq.
Qed.

(** ** Scripts of calls *)

(** The world after a call that took effect, read at another toggle. *)
Lemma other_toggle_frame (t t' : toggle) (w : World) sh (g : Formatter)
    (m' : Originals) :
  t <> t' ->
  ipython w = Some sh ->
  (forall typ, typ <> toggle_type t ->
     g !! typ = formatters sh !! toggle_mime t ≫= (.!! typ)) ->
  slot t'
    (set_originals (toggle_store t) m'
       (set_formatters (<[toggle_mime t := g]> (formatters sh)) w))
  = slot t' w
  /\ record t'
       (set_originals (toggle_store t) m'
          (set_formatters (<[toggle_mime t := g]> (formatters sh)) w))
     = record t' w.
Proof.
  intros Hne Hs Hg. split.
  - unfold slot.
    rewrite registered_set_originals, (registered_set_formatters _ _ sh) by done.
    unfold registered. rewrite Hs; simpl.
    destruct (decide (toggle_mime t' = toggle_mime t)) as [Hm|Hm].
    + rewrite Hm, lookup_insert_eq; simpl. apply Hg.
      intros Hty. apply Hne. symmetry. by apply toggle_key_inj.
    + by rewrite lookup_insert_ne.
  - unfold record. rewrite originals_set_originals.
    case_decide as Hd; [|by rewrite originals_set_formatters].
    by apply toggle_store_inj in Hd.
Qed.

Lemma enable_table_frame (t : toggle) (sh : Shell) (f : Formatter) :
  toggle_table t (formatters sh) = Some f ->
  forall typ, typ <> toggle_type t ->
    <[toggle_type t := toggle_callback t]> f !! typ
    = formatters sh !! toggle_mime t ≫= (.!! typ).
Proof.
  intros Hf typ Hne. rewrite lookup_insert_ne by done.
  unfold toggle_table in Hf.
  destruct (formatters sh !! toggle_mime t) as [f'|]; simpl.
  - by injection Hf as ->.
  - destruct t; simplify_eq; by rewrite lookup_empty.
Qed.

Lemma disable_table_frame (t : toggle) (sh : Shell) (f : Formatter)
    (r : option callback) :
  formatters sh !! toggle_mime t = Some f ->
  forall typ, typ <> toggle_type t ->
    match r with
    | Some c0 => <[toggle_type t := c0]> (delete (toggle_type t) f)
    | None => delete (toggle_type t) f
    end !! typ
    = formatters sh !! toggle_mime t ≫= (.!! typ).
Proof.
  intros Hf typ Hne. rewrite Hf; simpl.
  destruct r as [c0|]; rewrite ?lookup_insert_ne by done;
    by rewrite lookup_delete_ne.
Qed.

(** The table of text/html stays registered through an update of one
    dispatch table. *)
Lemma html_table_kept (w : World) sh (mime : string) (g : Formatter)
    (d : store) (m' : Originals) sh' :
  ipython w = Some sh ->
  is_Some (formatters sh !! "text/html") ->
  ipython (set_originals d m' (set_formatters (<[mime := g]> (formatters sh)) w))
  = Some sh' ->
  is_Some (formatters sh' !! "text/html").
Proof.
  intros Hs Hh. rewrite ipython_set_originals. unfold set_formatters; simpl.
  rewrite Hs. intros [= <-]; simpl.
  destruct (decide (mime = "text/html")) as [->|Hm].
  - by rewrite lookup_insert_eq.
  - by rewrite lookup_insert_ne.
Qed.

Lemma healthy_step (c : call) (w : World) :
  healthy w -> exists w', run_call c w = Return VNone w' /\ healthy w'.
Proof.
  intros [Hslots Hhtml]. destruct c as [t|t]; simpl.
  - destruct (record t w) as [r|] eqn:Hr.
    { exists w. by rewrite (enable_saved t w r Hr). }
    destruct (ipython w) as [sh|] eqn:Hs.
    2:{ exists w. rewrite (enable_no_shell t w Hs). split; [done|].
        split; [done|]. intros sh. by rewrite Hs. }
    assert (Hf : exists f, toggle_table t (formatters sh) = Some f).
    { unfold toggle_table.
      destruct (formatters sh !! toggle_mime t) as [f|] eqn:Hm; [by exists f|].
      destruct t; try by eexists.
      destruct (Hhtml sh eq_refl) as [f Hf]. simpl in Hm. congruence. }
    destruct Hf as [f Hf].
    rewrite (enable_effect t w sh f Hr Hs Hf).
    eexists; split; [done|]. split.
    + intros t' Hrec. destruct (decide (t = t')) as [<-|Hne].
      * unfold slot.
        rewrite registered_set_originals,
          (registered_set_formatters _ _ sh) by done.
        by rewrite lookup_insert_eq; simpl; rewrite lookup_insert_eq.
      * destruct (other_toggle_frame t t' w sh
                    (<[toggle_type t := toggle_callback t]> f)
                    (<[toggle_mime t := f !! toggle_type t]>
                       (originals (toggle_store t) w)) Hne Hs
                    (enable_table_frame t sh f Hf)) as [-> Hrec'].
        rewrite Hrec' in Hrec. by apply Hslots.
    + intros sh'. by apply (html_table_kept w sh), Hhtml.
  - destruct (record t w) as [r|] eqn:Hr.
    2:{ exists w. by rewrite (disable_not_saved t w Hr). }
    pose proof (Hslots t (ltac:(by rewrite Hr))) as Hc.
    unfold slot, registered in Hc.
    destruct (ipython w) as [sh|] eqn:Hs; [|done]. simpl in Hc.
    destruct (formatters sh !! toggle_mime t) as [f|] eqn:Hf; [|done].
    simpl in Hc.
    rewrite (disable_effect t w sh f r _ Hr Hs Hf Hc).
    eexists; split; [done|]. split.
    + intros t' Hrec. destruct (decide (t = t')) as [<-|Hne].
      * unfold record in Hrec. rewrite originals_set_originals in Hrec.
        case_decide; [|done]. rewrite lookup_delete_eq in Hrec.
        by destruct Hrec.
      * destruct (other_toggle_frame t t' w sh _
                    (delete (toggle_mime t) (originals (toggle_store t) w))
                    Hne Hs (disable_table_frame t sh f r Hf)) as [-> Hrec'].
        rewrite Hrec' in Hrec. by apply Hslots.
    + intros sh'. by apply (html_table_kept w sh), Hhtml.
Qed.

(** X6. From a world in which every enabled toggle has its callback in its
    slot and an active shell has the dispatch table of text/html (a fresh
    shell is such a world), any script of calls of the six public functions,
    in any order and with repetitions, runs to its end without raising and
    leaves such a world again. *)
Theorem healthy_scripts_never_raise (cs : list call) (w : World)
    (H : healthy w) :
  exists w', run_calls cs w = Return VNone w' /\ healthy w'.
Proof.
  revert w H. induction cs as [|c cs IH]; intros w H.
  - by exists w.
  - destruct (healthy_step c w H) as (w1 & Hc & H1).
    destruct (IH w1 H1) as (w' & Hcs & H').
    exists w'. split; [|done].
    simpl. unfold mbind, M_bind. by rewrite Hc.
Qed.

Lemma fresh_world_healthy : healthy fresh_world.
Proof.
  split.
  - intros t [r Hr]. by destruct t.
  - intros sh [= <-]. by eexists.
Defined.

Lemma healthy_scripts_never_raise_witness :
  exists w',
    run_calls [Disable StringRepr; Enable StringRepr; Enable DfStyleFormatter;
               Enable StringRepr; Disable DfStyleFormatter;
               Disable DfStyleFormatter; Enable DataframeMetadataRepr]
      fresh_world = Return VNone w'
    /\ healthy w'.
Proof.
  exact (healthy_scripts_never_raise _ fresh_world fresh_world_healthy).
Defined.

Lemma registered_frame (t : toggle) (w : World) sh (g : Formatter)
    (m' : Originals) (mime : string) (typ : type_key) :
  ipython w = Some sh ->
  (forall typ', typ' <> toggle_type t ->
     g !! typ' = formatters sh !! toggle_mime t ≫= (.!! typ')) ->
  (mime, typ) <> (toggle_mime t, toggle_type t) ->
  registered mime typ
    (set_originals (toggle_store t) m'
       (set_formatters (<[toggle_mime t := g]> (formatters sh)) w))
  = registered mime typ w.
Proof.
  intros Hs Hg Hne.
  rewrite registered_set_originals, (registered_set_formatters _ _ sh) by done.
  unfold registered. rewrite Hs; simpl.
  destruct (decide (mime = toggle_mime t)) as [->|Hm].
  - rewrite lookup_insert_eq; simpl. apply Hg. congruence.
  - by rewrite lookup_insert_ne.
Qed.

Lemma slot_via_table (t : toggle) (w : World) sh (f : Formatter) :
  ipython w = Some sh ->
  toggle_table t (formatters sh) = Some f ->
  slot t w = f !! toggle_type t.
Proof.
  intros Hs Hf. unfold slot, registered. rewrite Hs; simpl.
  unfold toggle_table in Hf.
  destruct (formatters sh !! toggle_mime t) as [f'|]; simpl.
  - by injection Hf as ->.
  - destruct t; simplify_eq; by rewrite lookup_empty.
Qed.

Lemma tracks_step (c : call) (w0 w : World) :
  tracks w0 w -> tracks w0 (world_after (run_call c w)).
Proof.
  intros [Htog Hrest]. destruct c as [t|t]; simpl.
  - destruct (enable_cases t w) as [->|(sh & f & Hs & Hr & Hf & ->)]; [done|].
    split.
    + intros t'. destruct (decide (t = t')) as [<-|Hne].
      * unfold record. rewrite originals_set_originals.
        case_decide; [|done]. rewrite lookup_insert_eq.
        rewrite <- (slot_via_table t w sh f Hs Hf).
        specialize (Htog t). by rewrite Hr in Htog.
      * destruct (other_toggle_frame t t' w sh
                    (<[toggle_type t := toggle_callback t]> f)
                    (<[toggle_mime t := f !! toggle_type t]>
                       (originals (toggle_store t) w)) Hne Hs
                    (enable_table_frame t sh f Hf)) as [-> ->].
        apply Htog.
    + intros mime typ Hkey.
      rewrite (registered_frame t w sh) by
        (try done; by apply enable_table_frame).
      by apply Hrest.
  - destruct (disable_cases t w)
      as [->|(sh & f & r & c & Hs & Hr & Hf & Hc & ->)]; [done|].
    split.
    + intros t'. destruct (decide (t = t')) as [<-|Hne].
      * unfold record. rewrite originals_set_originals.
        case_decide; [|done]. rewrite lookup_delete_eq.
        specialize (Htog t). rewrite Hr in Htog. rewrite <- Htog.
        unfold slot.
        rewrite registered_set_originals,
          (registered_set_formatters _ _ sh) by done.
        rewrite lookup_insert_eq; simpl.
        destruct r as [c0|]; [by rewrite lookup_insert_eq|].
        by rewrite lookup_delete_eq.
      * destruct (other_toggle_frame t t' w sh _
                    (delete (toggle_mime t) (originals (toggle_store t) w))
                    Hne Hs (disable_table_frame t sh f r Hf)) as [-> ->].
        apply Htog.
    + intros mime typ Hkey.
      rewrite (registered_frame t w sh) by
        (try done; by apply disable_table_frame).
      by apply Hrest.
Qed.

Lemma run_calls_app (cs1 cs2 : list call) (w : World) :
  run_calls (cs1 ++ cs2)%list w
  = match run_calls cs1 w with
    | Return _ w1 => run_calls cs2 w1
    | Raise e w1 => Raise e w1
    end.
Proof.
  revert w. induction cs1 as [|c cs1 IH]; intros w; simpl; [done|].
  unfold mbind, M_bind. destruct (run_call c w); [apply IH|done].
Qed.

Lemma healthy_tracks_script (cs : list call) (w0 w : World) :
  healthy w -> tracks w0 w ->
  exists w', run_calls cs w = Return VNone w' /\ healthy w' /\ tracks w0 w'.
Proof.
  revert w. induction cs as [|c cs IH]; intros w H Ht.
  - by exists w.
  - destruct (healthy_step c w H) as (w1 & Hc & H1).
    pose proof (tracks_step c w0 w Ht) as Ht1. rewrite Hc in Ht1.
    destruct (IH w1 H1 Ht1) as (w' & Hcs & H' & Ht').
    exists w'. split; [|done].
    simpl. unfold mbind, M_bind. by rewrite Hc.
Qed.

(** After a disable in a healthy world the toggle has no saved callback. *)
Lemma disable_clears (t : toggle) (w : World) :
  healthy w -> record t (world_after (disable t w)) = None.
Proof.
  intros H. destruct (healthy_step (Disable t) w H) as (w' & Hd & _).
  simpl in Hd. rewrite Hd. by eapply disable_forgets.
Qed.

Lemma disable_keeps_cleared (t t' : toggle) (w : World) :
  record t' w = None -> record t' (world_after (disable t w)) = None.
Proof.
  intros Hr'. destruct (decide (t = t')) as [<-|Hne].
  { by rewrite (disable_not_saved t w Hr'). }
  destruct (disable_cases t w)
    as [->|(sh & f & r & c & Hs & Hr & Hf & Hc & ->)]; [done|].
  by destruct (other_toggle_frame t t' w sh _
                 (delete (toggle_mime t) (originals (toggle_store t) w))
                 Hne Hs (disable_table_frame t sh f r Hf)) as [_ ->].
Qed.

Lemma toggle_key_cases (mime : string) (typ : type_key) :
  (exists t, (mime, typ) = (toggle_mime t, toggle_type t))
  \/ (forall t, (mime, typ) <> (toggle_mime t, toggle_type t)).
Proof.
  destruct (decide ((mime, typ)
                    = (toggle_mime StringRepr, toggle_type StringRepr)));
    [left; by exists StringRepr|].
  destruct (decide ((mime, typ)
                    = (toggle_mime DfStyleFormatter,
                       toggle_type DfStyleFormatter)));
    [left; by exists DfStyleFormatter|].
  destruct (decide ((mime, typ)
                    = (toggle_mime DataframeMetadataRepr,
                       toggle_type DataframeMetadataRepr)));
    [left; by exists DataframeMetadataRepr|].
  right. by intros [| |].
Qed.

(** X7. Start in a world in which no toggle is enabled and an active shell
    has the dispatch table of text/html.  Run any script of calls of the six
    public functions and then disable the three toggles: nothing raises, no
    callback stays saved, and every slot of the registry, of a toggle or not,
    holds exactly the callback it held at the start. *)
Theorem disable_all_restores_registry (cs : list call) (w : World)
    (H : healthy w) (Hoff : forall t, record t w = None) :
  exists w',
    run_calls (cs ++ [Disable StringRepr; Disable DfStyleFormatter;
                      Disable DataframeMetadataRepr])%list w
    = Return VNone w'
    /\ (forall mime typ, registered mime typ w' = registered mime typ w)
    /\ (forall t, record t w' = None).
Proof.
  assert (Ht : tracks w w).
  { split; [|done]. intros t. by rewrite Hoff. }
  destruct (healthy_tracks_script cs w w H Ht) as (w1 & Hcs & H1 & Ht1).
  destruct (healthy_step (Disable StringRepr) w1 H1) as (w2 & Hd2 & H2).
  destruct (healthy_step (Disable DfStyleFormatter) w2 H2) as (w3 & Hd3 & H3).
  destruct (healthy_step (Disable DataframeMetadataRepr) w3 H3)
    as (w4 & Hd4 & H4).
  pose proof (tracks_step (Disable StringRepr) w w1 Ht1) as Ht2.
  rewrite Hd2 in Ht2.
  pose proof (tracks_step (Disable DfStyleFormatter) w w2 Ht2) as Ht3.
  rewrite Hd3 in Ht3.
  pose proof (tracks_step (Disable DataframeMetadataRepr) w w3 Ht3) as Ht4.
  rewrite Hd4 in Ht4.
  assert (Hclear : forall t, record t w4 = None).
  { pose proof (disable_clears StringRepr w1 H1) as Hs.
    pose proof (disable_clears DfStyleFormatter w2 H2) as Hf.
    pose proof (disable_clears DataframeMetadataRepr w3 H3) as Hm.
    pose proof (disable_keeps_cleared DfStyleFormatter StringRepr w2) as Ks2.
    pose proof (disable_keeps_cleared DataframeMetadataRepr StringRepr w3) as Ks3.
    pose proof (disable_keeps_cleared DataframeMetadataRepr DfStyleFormatter w3)
      as Kf3.
    assert (E2 : world_after (disable StringRepr w1) = w2).
    { change (world_after (run_call (Disable StringRepr) w1) = w2).
      by rewrite Hd2. }
    assert (E3 : world_after (disable DfStyleFormatter w2) = w3).
    { change (world_after (run_call (Disable DfStyleFormatter) w2) = w3).
      by rewrite Hd3. }
    assert (E4 : world_after (disable DataframeMetadataRepr w3) = w4).
    { change (world_after (run_call (Disable DataframeMetadataRepr) w3) = w4).
      by rewrite Hd4. }
    rewrite E2 in Hs. rewrite E3 in Hf, Ks2. rewrite E4 in Hm, Ks3, Kf3.
    intros [| |]; auto. }
  exists w4. split; [|split; [|done]].
  - rewrite run_calls_app, Hcs. unfold run_calls, mbind, M_bind, mret, M_ret.
    by rewrite Hd2, Hd3, Hd4.
  - destruct Ht4 as [Htog Hrest]. intros mime typ.
    destruct (toggle_key_cases mime typ) as [[t [= -> ->]]|Hnone].
    + specialize (Htog t). simpl in Htog. by rewrite Hclear in Htog.
    + by apply Hrest.
Qed.

Lemma disable_all_restores_registry_witness :
  exists w',
    run_calls ([Enable StringRepr; Enable DataframeMetadataRepr;
                Disable StringRepr; Enable DfStyleFormatter;
                Enable StringRepr]
               ++ [Disable StringRepr; Disable DfStyleFormatter;
                   Disable DataframeMetadataRepr])%list fresh_world
    = Return VNone w'
    /\ (forall mime typ,
          registered mime typ w' = registered mime typ fresh_world)
    /\ (forall t, record t w' = None).
Proof.
  apply (disable_all_restores_registry _ fresh_world fresh_world_healthy).
  intros t. by destruct t.
Defined.

(** ** Registration of the intrinsic MIME type *)

(** X8. [_register_intrinsic_mimetype] never raises and returns None; it
    keeps every callback of the registry and every saved callback, so a
    dispatch table that is already registered is not replaced; after it an
    active shell has a dispatch table for the intrinsic MIME type; it changes
    nothing at all when there is no shell or when that table exists; and a
    second call changes nothing. *)
Theorem register_intrinsic_mimetype_spec (w : World) :
  exists w',
    _register_intrinsic_mimetype w = Return VNone w'
    /\ _register_intrinsic_mimetype w' = Return VNone w'
    /\ (forall mime typ, registered mime typ w' = registered mime typ w)
    /\ (forall d, originals d w' = originals d w)
    /\ (forall sh', ipython w' = Some sh' ->
          is_Some (formatters sh' !! _INTRINSIC_MIME_TYPE))
    /\ (ipython w = None -> w' = w)
    /\ (forall sh, ipython w = Some sh ->
          is_Some (formatters sh !! _INTRINSIC_MIME_TYPE) -> w' = w)
    /\ (forall sh, ipython w = Some sh ->
          formatters sh !! _INTRINSIC_MIME_TYPE = None ->
          registry w' = Some (<[_INTRINSIC_MIME_TYPE := ∅]> (formatters sh))).
Proof.
  open_world w.
  - unfold_module; simpl.
    destruct (reg !! _INTRINSIC_MIME_TYPE) as [f|] eqn:Hf.
    + eexists. split; [done|]. unfold_module; simpl.
      rewrite Hf. split; [done|]. split; [done|]. split; [done|].
      split; [by intros sh' [= <-]; simpl; rewrite Hf|].
      split; [done|]. split; [done|].
      intros sh [= <-]. simpl. by rewrite Hf.
    + eexists. split; [done|]. unfold_module; simpl.
      rewrite lookup_insert_eq. split; [done|]. split.
      { intros mime typ. unfold registered; simpl.
        destruct (decide (mime = _INTRINSIC_MIME_TYPE)) as [->|Hm].
        - by rewrite lookup_insert_eq, Hf.
        - by rewrite lookup_insert_ne. }
      split; [by intros []|].
      split; [by intros sh' [= <-]; simpl; rewrite lookup_insert_eq|].
      split; [done|]. split.
      * intros sh [= <-]. simpl. rewrite Hf. by intros [? ?].
      * by intros sh [= <-].
  - unfold_module; simpl. eexists. repeat (split; [done|]). by intros.
Qed.

(** ** When the dataframe renderer raises, and what it returns *)

Lemma ns_get_elem (namespace : list (string * object)) (k : string) (o : object) :
  ns_get namespace k = Some o -> (k, o) ∈ namespace.
Proof.
  induction namespace as [|[k' x] rest IH]; simpl; [done|].
  destruct (String.eqb k' k) eqn:Hk.
  - intros [= <-]. apply String.eqb_eq in Hk as ->. by left.
  - intros H. right. by apply IH.
Qed.

Section RendererErrors.

Context {py : Python} {number : Type}.
Variable pd_var : list cell -> number.
Variable pd_to_string : list (SummaryRow number) -> string.
Variable pd_failure : DataFrame -> option exn.

Local Abbreviation summarize :=
  (_summarize_dataframe pd_var pd_to_string pd_failure).
Local Abbreviation field := (summary_field pd_var pd_to_string pd_failure).
Local Abbreviation render :=
  (_dataframe_intrinsic_repr pd_var pd_to_string pd_failure).

(** The renderer with a shell and no identity match, when a read of the
    fallback fails. *)
Lemma render_history_error (w : World) (ip : Shell) (d : object) :
  ipython w = Some ip ->
  scan_namespace (user_ns ip) d = None ->
  (ns_get (user_ns ip) "In" = None -> render w d = Err KeyError)
  /\ (forall h e, ns_get (user_ns ip) "In" = Some h ->
        getitem_last (obj_value h) = Err e -> render w d = Err e)
  /\ (forall h v e, ns_get (user_ns ip) "In" = Some h ->
        getitem_last (obj_value h) = Ok v ->
        partition_dot v = Err e -> render w d = Err e).
Proof.
  intros Hs Hscan.
  unfold _dataframe_intrinsic_repr, resolve_variable_name, ns_getitem.
  rewrite Hs, Hscan; simpl. split; [|split].
  - by intros ->.
  - intros h e -> Hlast; simpl. by rewrite Hlast.
  - intros h v e -> Hlast Hparts; simpl. rewrite Hlast; simpl.
    by rewrite Hparts.
Qed.

(** X9. The dataframe renderer returns a payload exactly when no read of
    name resolution fails: no shell is active, or the identity scan finds a
    name, or the namespace binds In, the subscript [-1] of its value returns
    and [partition] gives its parts.  Otherwise the exception of the failed
    read comes out of the renderer unchanged: KeyError when the namespace has
    no In, IndexError when In is an empty list, and in general the exception
    of the subscript or that of [partition]. *)
Theorem render_returns_iff (w : World) (d : object) :
  ((exists p, render w d = Ok p) <-> history_read w d)
  /\ (forall ip, ipython w = Some ip ->
        scan_namespace (user_ns ip) d = None ->
        (ns_get (user_ns ip) "In" = None -> render w d = Err KeyError)
        /\ (forall h, ns_get (user_ns ip) "In" = Some h ->
              obj_value h = VList [] -> render w d = Err IndexError)
        /\ (forall h e, ns_get (user_ns ip) "In" = Some h ->
              getitem_last (obj_value h) = Err e -> render w d = Err e)
        /\ (forall h v e, ns_get (user_ns ip) "In" = Some h ->
              getitem_last (obj_value h) = Ok v ->
              partition_dot v = Err e -> render w d = Err e)).
Proof.
  split.
  - unfold history_read. split.
    + intros [p Hp]. destruct (ipython w) as [ip|] eqn:Hs; [|done].
      destruct (scan_namespace (user_ns ip) d) as [v|] eqn:Hv; [by left|].
      right. by eapply render_ok_reads_parts.
    + intros H. destruct (ipython w) as [ip|] eqn:Hs.
      * destruct (scan_namespace (user_ns ip) d) as [v|] eqn:Hv.
        { eexists. by eapply render_scan_hit. }
        destruct H as [[? ?]|[parts Hparts]]; [done|].
        eexists. by eapply render_parts.
      * eexists. by apply render_no_shell.
  - intros ip Hs Hscan.
    destruct (render_history_error w ip d Hs Hscan) as (Hkey & Herr & Hpart).
    split; [done|]. split; [|by split].
    intros h Hin Hval. apply (Herr h); [done|]. by rewrite Hval.
Qed.

Lemma fallback_of_parts_inv (namespace : list (string * object))
    (parts : string * string * string) (v : string) (target : object) :
  fallback_of_parts namespace parts = Some (v, target) ->
  ns_get namespace v = Some target
  /\ isinstance_DataFrame (Some target) = true.
Proof.
  unfold fallback_of_parts. destruct parts as [[h dot] t].
  destruct (_ && _); [|done].
  destruct (ns_get namespace h) as [o|] eqn:Ho; [|done].
  destruct (isinstance_DataFrame (Some o)) eqn:Hinst; [|done].
  by intros [= <- <-].
Qed.

(** What a returned payload is made of. *)
Lemma render_ok_inv (w : World) (d : object) (p : Payload) :
  render w d = Ok p ->
  exists vn target,
    p = payload vn (field target)
    /\ ((vn = None /\ target = d)
        \/ (exists ip v, ipython w = Some ip
                         /\ scan_namespace (user_ns ip) d = Some v
                         /\ vn = Some v /\ target = d)
        \/ (exists ip parts v, ipython w = Some ip
                               /\ last_line_parts ip parts
                               /\ fallback_of_parts (user_ns ip) parts
                                  = Some (v, target)
                               /\ vn = Some v)).
Proof.
  intros Hp. destruct (ipython w) as [ip|] eqn:Hs.
  - destruct (scan_namespace (user_ns ip) d) as [v|] eqn:Hv.
    + rewrite (render_scan_hit _ _ _ w ip d v Hs Hv) in Hp. injection Hp as <-.
      exists (Some v), d. split; [done|]. right; left. by exists ip, v.
    + destruct (render_ok_reads_parts _ _ _ w ip d p Hs Hv Hp) as [parts Hl].
      rewrite (render_parts _ _ _ w ip d parts Hs Hv Hl) in Hp.
      injection Hp as <-.
      destruct (fallback_of_parts (user_ns ip) parts) as [[v o]|] eqn:Hf.
      * exists (Some v), o. split; [done|]. right; right. by exists ip, parts, v.
      * exists None, d. split; [done|]. by left.
  - rewrite (render_no_shell _ _ _ w d Hs) in Hp. injection Hp as <-.
    exists None, d. split; [done|]. by left.
Qed.

(** X10. In every payload the renderer returns: type is dataframe; a summary
    is never the empty string, and it is what the summarizer returns for the
    displayed object or, when the fallback put a name in, for the dataframe
    that the namespace binds to that name; a variable_name is always the name
    of an entry of the namespace, bound to the displayed object itself or to
    a dataframe. *)
Theorem render_payload_shape (w : World) (d : object) (p : Payload)
    (Hp : render w d = Ok p) :
  p !! "type" = Some "dataframe"
  /\ (forall s, p !! "summary" = Some s ->
        s <> ""
        /\ (summarize (obj_value d) = Some s
            \/ exists ip v T,
                 ipython w = Some ip
                 /\ p !! "variable_name" = Some v
                 /\ ns_get (user_ns ip) v = Some T
                 /\ summarize (obj_value T) = Some s))
  /\ (forall v, p !! "variable_name" = Some v ->
        exists ip o,
          ipython w = Some ip
          /\ (v, o) ∈ user_ns ip
          /\ (is_ d o = true \/ isinstance_DataFrame (Some o) = true)).
Proof.
  destruct (render_ok_inv w d p Hp) as (vn & target & -> & Hcase).
  rewrite payload_type, payload_summary, payload_variable_name.
  assert (Hfield : forall s, field target = Some s ->
            s <> "" /\ summarize (obj_value target) = Some s).
  { intros s. unfold summary_field.
    destruct (summarize (obj_value target)) as [s'|]; [|done].
    destruct s' as [|c s']; simpl; [done|]. by intros [= <-]. }
  split; [done|]. split.
  - intros s Hs. destruct (Hfield s Hs) as [Hne Hsum]. split; [done|].
    destruct Hcase as [[_ ->]|[(ip & v & _ & _ & _ & ->)
                              |(ip & parts & v & Hip & _ & Hf & ->)]];
      [by left|by left|].
    right. exists ip, v, target. split; [done|]. split; [done|].
    apply fallback_of_parts_inv in Hf as [Hget _].
    by split.
  - intros v ->.
    destruct Hcase as [[? _]|[(ip & v' & Hip & Hscan & [= <-] & _)
                             |(ip & parts & v' & Hip & _ & Hf & [= <-])]];
      [done| |].
    + apply scan_namespace_spec in Hscan as (pre & x & post & Hns & Hhit & _).
      exists ip, x. split; [done|]. split.
      * rewrite Hns. apply elem_of_app. right. by left.
      * left. unfold scan_hit in Hhit. simpl in Hhit.
        by apply andb_true_iff in Hhit as [? _].
    + apply fallback_of_parts_inv in Hf as [Hget Hinst].
      exists ip, target. split; [done|]. split; [by apply ns_get_elem|by right].
Qed.

End RendererErrors.

Lemma render_payload_shape_witness :
  Toy._dataframe_intrinsic_repr (world_after_line "df.head()") head_frame
  = Ok (payload (Some "df") (Some "a,b"))
  /\ payload (Some "df") (Some "a,b") !! "type" = Some "dataframe".
Proof.
  assert (Hp : Toy._dataframe_intrinsic_repr
                 (world_after_line "df.head()") head_frame
               = Ok (payload (Some "df") (Some "a,b"))).
  { vm_compute. reflexivity. }
  split; [exact Hp|].
  exact (proj1 (render_payload_shape (py := Toy.python)
                  Toy.var Toy.to_string Toy.failure
                  _ _ _ Hp)).
Defined.

Example render_empty_history_raises :
  Toy._dataframe_intrinsic_repr
    (with_shell
       (Some {| formatters := ∅;
                user_ns := [("In", {| obj_id := 0; obj_value := VList [] |})] |})
       no_shell_world) shown_frame
  = Err IndexError.
Proof. vm_compute. reflexivity. Qed.

(** ** Enabling two toggles in either order *)

Lemma world_after_enable (t : toggle) (w : World) :
  world_after (enable t w) = after_enable t w.
Proof.
  unfold after_enable.
  destruct (record t w) as [r|] eqn:Hr.
  { by rewrite (enable_saved t w r Hr). }
  destruct (ipython w) as [sh|] eqn:Hs.
  2:{ by rewrite (enable_no_shell t w Hs). }
  destruct (toggle_table t (formatters sh)) as [f|] eqn:Hf.
  - by rewrite (enable_effect t w sh f Hr Hs Hf).
  - unfold toggle_table in Hf.
    destruct (formatters sh !! toggle_mime t) eqn:Hm; [done|].
    destruct t; try done. by rewrite (enable_raises w sh Hr Hs Hm).
Qed.

Lemma after_enable_commute (t1 t2 : toggle) (w : World) :
  after_enable t1 (after_enable t2 w) = after_enable t2 (after_enable t1 w).
Proof.
  destruct (decide (t1 = t2)) as [->|Hne]; [done|].
  open_world w.
  - destruct t1, t2; try done;
      unfold after_enable, record, toggle_table; simpl;
      repeat (case_match; simpl in *; simplify_map_eq); try done;
      rewrite ?insert_insert_eq;
      first [ by (do 3 f_equal; apply insert_insert_ne)
            | by (do 4 f_equal; apply insert_insert_ne) ].
  - destruct t1, t2; try done;
      unfold after_enable, record; simpl;
      by repeat (case_match; simpl in *; simplify_map_eq).
Qed.

(** X11. Enabling two toggles leaves the same world in either order:
    the registry, the three dictionaries of saved callbacks and the
    namespace are equal, also when the two toggles share the dispatch table
    of the intrinsic MIME type and when one of the calls raises. *)
Theorem enable_commute (t1 t2 : toggle) (w : World) :
  world_after (enable t1 (world_after (enable t2 w)))
  = world_after (enable t2 (world_after (enable t1 w))).
Proof.
  rewrite !world_after_enable. apply after_enable_commute.
Qed.

(** ** A callback installed by someone else while a toggle is enabled *)

Lemma for_type_install (key : string) (typ : type_key) (c : callback)
    (w : World) sh (f : Formatter) :
  ipython w = Some sh ->
  formatters sh !! key = Some f ->
  for_type key typ (Some c) w
  = Return (f !! typ)
      (set_formatters (<[key := <[typ := c]> f]> (formatters sh)) w).
Proof.
  intros Hs Hf. unfold_module. by rewrite Hs, Hf, Hs.
Qed.

(** X12. While a toggle is enabled, a callback that the host installs in
    the toggle's slot (with [for_type], which hands back the toggle's own
    callback as the previous one) is dropped by the disable that follows:
    disabling does not look at what the slot holds and puts back the callback
    saved by enable, so the slot ends as it was before the enable. *)
Theorem host_callback_dropped (t : toggle) (w : World) (sh : Shell)
    (f : Formatter) (h : callback)
    (Hr : record t w = None)
    (Hs : ipython w = Some sh)
    (Hf : toggle_table t (formatters sh) = Some f) :
  exists w1 w2 w3,
    enable t w = Return VNone w1
    /\ for_type (toggle_mime t) (toggle_type t) (Some h) w1
       = Return (Some (toggle_callback t)) w2
    /\ slot t w2 = Some h
    /\ disable t w2 = Return VNone w3
    /\ slot t w3 = slot t w
    /\ record t w3 = None.
Proof.
  eexists _, _. 
  assert (He := enable_effect t w sh f Hr Hs Hf).
  assert (Hs1 : ipython
            (set_originals (toggle_store t)
               (<[toggle_mime t := f !! toggle_type t]>
                  (originals (toggle_store t) w))
               (set_formatters
                  (<[toggle_mime t := <[toggle_type t := toggle_callback t]> f]>
                     (formatters sh)) w))
          = Some {| formatters :=
                      <[toggle_mime t := <[toggle_type t := toggle_callback t]> f]>
                        (formatters sh);
                    user_ns := user_ns sh |}).
  { rewrite ipython_set_originals. unfold set_formatters; simpl. by rewrite Hs. }
  pose proof (for_type_install (toggle_mime t) (toggle_type t) h _ _
                (<[toggle_type t := toggle_callback t]> f) Hs1) as Hft.
  simpl in Hft. rewrite !lookup_insert_eq in Hft. specialize (Hft eq_refl).
  rewrite insert_insert_eq in Hft.
  match type of Hft with _ = Return _ ?w2 =>
    assert (Hslot2 : slot t w2 = Some h);
    [|assert (Hrec2 : record t w2 = Some (f !! toggle_type t))]
  end.
  { unfold slot, registered, set_formatters; simpl.
    rewrite ipython_set_originals; simpl. rewrite Hs; simpl.
    rewrite lookup_insert_eq; simpl. by rewrite lookup_insert_eq. }
  { unfold record. rewrite originals_set_formatters, originals_set_originals.
    case_decide; [|done]. by rewrite lookup_insert_eq. }
  destruct (disable_restores t _ _ _ Hrec2 Hslot2) as (w3 & Hd & Hc3 & Hr3).
  exists w3. split; [exact He|]. split; [exact Hft|].
  split; [exact Hslot2|]. split; [exact Hd|]. split; [|exact Hr3].
  by rewrite Hc3, (slot_via_table t w sh f Hs Hf).
Qed.

Lemma host_callback_dropped_witness :
  exists w1 w2 w3,
    enable StringRepr fresh_world = Return VNone w1
    /\ for_type (toggle_mime StringRepr) (toggle_type StringRepr)
         (Some (Fn_host 7)) w1
       = Return (Some (toggle_callback StringRepr)) w2
    /\ slot StringRepr w2 = Some (Fn_host 7)
    /\ disable StringRepr w2 = Return VNone w3
    /\ slot StringRepr w3 = slot StringRepr fresh_world
    /\ record StringRepr w3 = None.
Proof.
  exact (host_callback_dropped StringRepr fresh_world fresh_shell ∅
           (Fn_host 7) eq_refl eq_refl eq_refl).
Defined.

(** ** The summarizer on values that are not dataframes *)

Section SummarizerErrors.

Context {number : Type}.
Variable pd_var : list cell -> number.
Variable pd_to_string : list (SummaryRow number) -> string.
Variable pd_failure : DataFrame -> option exn.

(** X13. For a value that is not a dataframe the summarizer returns None:
    [len] fails on it (None, an opaque object), or it has a length but no
    [columns] (a string, a list), and either failure is caught by the
    [except] clause.  A failure that pandas reports on a dataframe within
    the bounds is caught in the same way. *)
Theorem summarize_dataframe_swallows_errors (v : pyvalue) :
  ((forall df, v <> VDataFrame df) ->
   _summarize_dataframe pd_var pd_to_string pd_failure v = None)
  /\ (forall df e, v = VDataFrame df -> pd_failure df = Some e ->
        _summarize_dataframe pd_var pd_to_string pd_failure v = None).
Proof.
  split.
  - intros Hv. unfold _summarize_dataframe, summarize_body.
    destruct v as [|s|items|df|n]; simpl; try done.
    by destruct (Hv df).
  - intros df e -> He. rewrite summarize_dataframe_cases.
    destruct (_ || _); [done|]. unfold pd_assign. by rewrite He.
Qed.

End SummarizerErrors.
